(** * The FreePBX phone-call relay (infra/freepbx-ami-relay.py)

    A shallow embedding of the relay: the request handler [do_POST], the
    speech pipeline [generate_tts], the call-file writer [originate_call] and
    the retention sweep [_cleanup_old_sounds], over an explicit model of the
    two directories the relay touches.

    Python values are modelled as follows.
    - [str] is a list of Unicode code points ([pystr]).
    - [float] is the kernel's binary64 ([PrimFloat.float]); [int] is [Z].
    - Exceptions are carried by their text, [str(e)].
    - What lies outside the program (the wall clock, the external programs
      flite and sox, I/O failures, the interpreter's [repr] of strings and
      floats) is read from an [env] record; every statement below is
      quantified over it.
    - A response is the value the handler hands to the socket; failures of
      the socket itself and the log lines are left out. *)

From Stdlib Require Import ZArith String Ascii List Floats DecimalString.
From Stdlib Require Decimal DecimalZ.
From stdpp Require Import gmap list.
Import ListNotations.

Set Default Proof Using "Type".
Set Warnings "-register-all".

(* ===================================================================== *)
(** * Python strings *)

Module Py.

Definition pystr := list N.

(** A literal of the source, character by character. *)
Definition lit (s : string) : pystr := map N_of_ascii (list_ascii_of_string s).
Arguments lit : simpl never.

(** ["\n"] *)
Definition nl : pystr := [10%N].

(** [str.isspace] for one character: the code points CPython's
    [_PyUnicode_IsWhitespace] accepts. *)
Definition isspace (c : N) : bool :=
  ((9 <=? c) && (c <=? 13) || (28 <=? c) && (c <=? 32)
   || (c =? 133) || (c =? 160) || (c =? 5760)
   || (8192 <=? c) && (c <=? 8202)
   || (c =? 8232) || (c =? 8233) || (c =? 8239) || (c =? 8287)
   || (c =? 12288))%N.

Fixpoint lstrip (s : pystr) : pystr :=
  match s with
  | c :: s' => if isspace c then lstrip s' else s
  | [] => []
  end.

Definition rstrip (s : pystr) : pystr := rev (lstrip (rev s)).

(** [s.strip()] *)
Definition strip (s : pystr) : pystr := rstrip (lstrip s).

(** [s.startswith(p)] *)
Fixpoint startswith (s p : pystr) : bool :=
  match p, s with
  | [], _ => true
  | c :: p', d :: s' => (c =? d)%N && startswith s' p'
  | _ :: _, [] => false
  end.

(** [sep.join(parts)] *)
Fixpoint join (sep : pystr) (parts : list pystr) : pystr :=
  match parts with
  | [] => []
  | [p] => p
  | p :: rest => p ++ sep ++ join sep rest
  end.

(** The lines of a text as a reader that splits at line feeds sees them:
    each piece that a line feed ends, and the last piece when it is not empty. *)
Fixpoint lines (s : pystr) : list pystr :=
  match s with
  | [] => []
  | c :: s' =>
      if (c =? 10)%N then [] :: lines s'
      else match lines s' with
           | l :: ls => (c :: l) :: ls
           | [] => [[c]]
           end
  end.

(** No line feed in the string. *)
Definition single_line (s : pystr) : bool := forallb (fun c => negb (c =? 10)%N) s.

(** [not s] for a string: true on the empty string. *)
Definition is_empty (s : pystr) : bool :=
  match s with [] => true | _ :: _ => false end.

(** [str(n)] for an integer: decimal digits, with a leading minus sign. *)
Definition str_int (z : Z) : pystr := lit (NilEmpty.string_of_int (Z.to_int z)).

(** [int(x)] for a float: truncation towards zero; NaN and the infinities
    raise ([None]). *)
Definition int_of_float (x : float) : option Z :=
  match Prim2SF x with
  | S754_zero _ => Some 0%Z
  | S754_finite s m e =>
      let a := match e with
               | Z0 => Zpos m
               | Zpos k => (Zpos m * 2 ^ Zpos k)%Z
               | Zneg k => (Zpos m / 2 ^ Zpos k)%Z
               end in
      Some (if s then (- a)%Z else a)
  | S754_infinity _ | S754_nan => None
  end.

(** The text of the exception [int] raises on such a float. *)
Definition int_of_float_error (x : float) : pystr :=
  match Prim2SF x with
  | S754_nan => lit "cannot convert float NaN to integer"
  | _ => lit "cannot convert float infinity to integer"
  end.

(** ** JSON values, as [json.loads] returns them

    A [JDict] lists the items of the dict in insertion order; [dict_get]
    returns the first item under the key. *)
Inductive json : Type :=
  | JNull
  | JBool (b : bool)
  | JInt (z : Z)
  | JFloat (x : float)
  | JStr (s : pystr)
  | JList (l : list json)
  | JDict (items : list (pystr * json)).

Definition pystr_eqb (a b : pystr) : bool := bool_decide (a = b).

(** [d.get(key, default)] *)
Fixpoint dict_get (items : list (pystr * json)) (key : pystr) (default : json) : json :=
  match items with
  | [] => default
  | (k, v) :: rest => if pystr_eqb k key then v else dict_get rest key default
  end.

Section Repr.
(** [repr] of a string and of a float depend on the interpreter's Unicode
    tables and float printer; they are taken from the environment. *)
Variable repr_str : pystr -> pystr.
Variable repr_float : float -> pystr.

Fixpoint repr (j : json) : pystr :=
  match j with
  | JNull => lit "None"
  | JBool true => lit "True"
  | JBool false => lit "False"
  | JInt z => str_int z
  | JFloat x => repr_float x
  | JStr s => repr_str s
  | JList l => lit "[" ++ join (lit ", ") (map repr l) ++ lit "]"
  | JDict items =>
      lit "{" ++
      join (lit ", ")
           (map (fun kv => repr_str (fst kv) ++ lit ": " ++ repr (snd kv)) items)
      ++ lit "}"
  end.

(** [str(v)]: a string is itself, anything else prints as its [repr]. *)
Definition str (j : json) : pystr :=
  match j with
  | JStr s => s
  | _ => repr j
  end.
End Repr.

End Py.
Import Py.

(* ===================================================================== *)
(** * The file system and the environment *)

Module FS.

(** A regular file: its content, its modification time and its owner
    (user, group). *)
Record file := { f_data : list N; f_mtime : float; f_owner : pystr * pystr }.

(** A directory entry: a regular file, or anything [os.path.isfile] rejects
    (a directory, a socket, ...), of which only the modification time is kept. *)
Inductive node :=
  | Reg (f : file)
  | Special (mtime : float).

(** The two directories of the relay. *)
Inductive dirname := SOUNDS_DIR | SPOOL_DIR.

Definition dirname_str (D : dirname) : pystr :=
  match D with
  | SOUNDS_DIR => lit "/var/lib/asterisk/sounds/custom"
  | SPOOL_DIR => lit "/var/spool/asterisk/outgoing"
  end.

(** A path is a directory and an entry name; the relay only builds paths by
    joining one of its two directories with a name free of slashes. *)
Definition path := (dirname * pystr)%type.

Definition os_path_join (D : dirname) (name : pystr) : path := (D, name).

(** [path + suffix] *)
Definition path_add (p : path) (suffix : pystr) : path := (p.1, p.2 ++ suffix).

(** The path as the string Python holds. *)
Definition path_str (p : path) : pystr := dirname_str p.1 ++ lit "/" ++ p.2.

Record disk := { sounds : gmap pystr node; spool : gmap pystr node }.

Definition dir_of (d : disk) (D : dirname) : gmap pystr node :=
  match D with
  | SOUNDS_DIR => sounds d
  | SPOOL_DIR => spool d
  end.

Definition set_dir (d : disk) (D : dirname) (m : gmap pystr node) : disk :=
  match D with
  | SOUNDS_DIR => {| sounds := m; spool := spool d |}
  | SPOOL_DIR => {| sounds := sounds d; spool := m |}
  end.

Definition entry (d : disk) (p : path) : option node := dir_of d p.1 !! p.2.

Definition put (p : path) (x : node) (d : disk) : disk :=
  set_dir d p.1 (<[p.2 := x]> (dir_of d p.1)).

Definition del (p : path) (d : disk) : disk :=
  set_dir d p.1 (delete p.2 (dir_of d p.1)).

(** What the program cannot decide. Operations are numbered as they are
    executed ([tick]); the environment says, for the operation at each
    number, what the clock reads, whether it fails for an outside reason
    (a missing program, a full disk, a permission), with which exception
    text, and at which partial lengths a file being written was observable. *)
Record env := {
  clock : nat -> float;
  fails : nat -> bool;
  errtext : nat -> pystr;
  partial : nat -> list nat;
  flite : pystr -> list N;     (* the audio flite speaks for a text *)
  sox : list N -> list N;      (* the resampled audio *)
  euid : pystr * pystr;        (* the user and group the relay runs as *)
  repr_str : pystr -> pystr;
  repr_float : float -> pystr
}.

(** The state a run threads: the disk, the number of the next operation, and
    every state the disk went through, newest first. *)
Record world := { fs : disk; tick : nat; seen : list disk }.

Inductive result (A : Type) :=
  | Ok (a : A)
  | Raise (e : pystr).
Arguments Ok {A} a.
Arguments Raise {A} e.

Definition M (A : Type) : Type := world -> result A * world.

#[global] Instance M_ret : MRet M := fun A a w => (Ok a, w).

#[global] Instance M_bind : MBind M := fun A B k m w =>
  match m w with
  | (Ok a, w') => k a w'
  | (Raise e, w') => (Raise e, w')
  end.

(** [raise Exception(e)] *)
Definition raise {A} (e : pystr) : M A := fun w => (Raise e, w).

(** [try: m  except Exception as e: h e] *)
Definition try_except {A} (m : M A) (h : pystr -> M A) : M A := fun w =>
  match m w with
  | (Ok a, w') => (Ok a, w')
  | (Raise e, w') => h e w'
  end.

(** [for x in l: body x] *)
Fixpoint for_each {A} (l : list A) (body : A -> M unit) : M unit :=
  match l with
  | [] => mret tt
  | x :: l' => body x ;; for_each l' body
  end.

(** One operation of the operating system: from its number and the disk, the
    successive states it leaves on the disk and its outcome. *)
Definition prim {A} (act : nat -> disk -> list disk * result A) : M A := fun w =>
  let '(ds, r) := act (tick w) (fs w) in
  (r, {| fs := List.last ds (fs w); tick := S (tick w); seen := rev ds ++ seen w |}).

Section Ops.
Variable E : env.

Definition oserror {A} (n : nat) : list disk * result A := ([], Raise (errtext E n)).

(** Writing [data] to [p]: the file is observable at the partial lengths
    the environment gives, then the write fails or completes. *)
Definition emit (p : path) (data : list N) (n : nat) (d : disk) : list disk * result unit :=
  let owner := match entry d p with
               | Some (Reg f) => f_owner f
               | _ => euid E
               end in
  let upto k := put p (Reg {| f_data := take k data; f_mtime := clock E n; f_owner := owner |}) d in
  let ds := map upto (partial E n) in
  if fails E n then (ds, Raise (errtext E n))
  else (ds ++ [put p (Reg {| f_data := data; f_mtime := clock E n; f_owner := owner |}) d], Ok tt).

(** [time.time()] *)
Definition time_time : M float := prim (fun n d => ([], Ok (clock E n))).

(** [os.makedirs(D, exist_ok=True)]; both directories exist in the model. *)
Definition os_makedirs (D : dirname) : M unit :=
  prim (fun n d => if fails E n then oserror n else ([], Ok tt)).

(** [subprocess.run(["flite", "-t", message, "-o", raw_path], check=True, ...)] *)
Definition run_flite (message : pystr) (raw_path : path) : M unit :=
  prim (emit raw_path (flite E message)).

(** [subprocess.run(["sox", raw_path, ..., final_path], check=True, ...)] *)
Definition run_sox (raw_path final_path : path) : M unit :=
  prim (fun n d =>
    match entry d raw_path with
    | Some (Reg f) => emit final_path (sox E (f_data f)) n d
    | _ => oserror n
    end).

(** [os.remove(p)] *)
Definition os_remove (p : path) : M unit :=
  prim (fun n d =>
    if fails E n then oserror n
    else match entry d p with
         | Some _ => ([del p d], Ok tt)
         | None => oserror n
         end).

(** [shutil.chown(p, user, group)] *)
Definition shutil_chown (p : path) (user group : pystr) : M unit :=
  prim (fun n d =>
    if fails E n then oserror n
    else match entry d p with
         | Some (Reg f) =>
             ([put p (Reg {| f_data := f_data f; f_mtime := f_mtime f;
                             f_owner := (user, group) |}) d], Ok tt)
         | Some (Special _) => ([], Ok tt)
         | None => oserror n
         end).

(** [open(p, "w")]: the file is created, or truncated. *)
Definition open_w (p : path) : M unit :=
  prim (fun n d =>
    if fails E n then oserror n
    else
      let owner := match entry d p with
                   | Some (Reg f) => f_owner f
                   | _ => euid E
                   end in
      ([put p (Reg {| f_data := []; f_mtime := clock E n; f_owner := owner |}) d], Ok tt)).

(** [f.write(content)] and the close that ends the [with] block. *)
Definition file_write (p : path) (content : pystr) : M unit :=
  prim (emit p content).

(** [os.rename(src, dst)] *)
Definition os_rename (src dst : path) : M unit :=
  prim (fun n d =>
    if fails E n then oserror n
    else match entry d src with
         | Some x => ([put dst x (del src d)], Ok tt)
         | None => oserror n
         end).

(** [os.listdir(D)] *)
Definition os_listdir (D : dirname) : M (list pystr) :=
  prim (fun n d =>
    if fails E n then oserror n
    else ([], Ok (map fst (map_to_list (dir_of d D))))).

(** [os.path.isfile(p)]; it never raises. *)
Definition os_path_isfile (p : path) : M bool :=
  prim (fun n d =>
    ([], Ok (match entry d p with Some (Reg _) => true | _ => false end))).

(** [os.path.getmtime(p)] *)
Definition os_path_getmtime (p : path) : M float :=
  prim (fun n d =>
    if fails E n then oserror n
    else match entry d p with
         | Some (Reg f) => ([], Ok (f_mtime f))
         | Some (Special t) => ([], Ok t)
         | None => oserror n
         end).
End Ops.

End FS.
Import FS.

(* ===================================================================== *)
(** * The relay *)

Module Relay.

(** The module-level settings read from the process environment at import. *)
Record config := {
  RELAY_TOKEN : pystr;
  RELAY_PORT : Z;
  TRUNK : pystr;
  CALLER_ID : pystr
}.

Definition MAX_SOUND_AGE_SECS : Z := 3600.

(** The float Python compares an int below 2^53 with. *)
Definition float_of_int (z : Z) : float := of_uint63 (Uint63.of_Z z).

(** ** HTTP messages *)

(** A request, with the results of the two library calls that read it:
    [int(self.headers.get("Content-Length", 0))] and
    [json.loads(self.rfile.read(length))], each [None] when it raises. *)
Record request := {
  rq_path : pystr;
  rq_token : option pystr;      (* self.headers.get("X-Relay-Token") *)
  rq_length : option Z;
  rq_body : option json
}.

(** A response body: the HTML page [send_error] formats from the status code
    and the message (the standard phrase when there is none), or the text
    [json.dumps] gives for a value. *)
Inductive body :=
  | ErrorPage (code : Z) (message : option pystr)
  | JsonText (data : json).

Record response := { status : Z; content_type : pystr; payload : body }.

(** What the client receives: a response, or nothing when an exception
    leaves the handler. *)
Inductive reply :=
  | Sent (r : response)
  | Unhandled.

(** [self.send_error(code, message)] *)
Definition send_error (code : Z) (message : option pystr) : M reply :=
  mret (Sent {| status := code;
                content_type := lit "text/html;charset=utf-8";
                payload := ErrorPage code message |}).

(** [Handler._json] *)
Definition _json (code : Z) (data : json) : M reply :=
  mret (Sent {| status := code;
                content_type := lit "application/json";
                payload := JsonText data |}).

(** What reaches the server: the handler class defines the two methods. *)
Inductive http_request :=
  | GET (path : pystr)
  | POST (rq : request).

Section Program.
Variable cfg : config.
Variable E : env.

Definition generate_tts (message uid : pystr) : M pystr :=
  let sound_name := lit "akira-alert-" ++ uid in
  let raw_path := os_path_join SOUNDS_DIR (sound_name ++ lit "-raw.wav") in
  let final_path := os_path_join SOUNDS_DIR (sound_name ++ lit ".wav") in
  os_makedirs E SOUNDS_DIR;;
  run_flite E message raw_path;;
  run_sox E raw_path final_path;;
  os_remove E raw_path;;
  try_except (shutil_chown E final_path (lit "asterisk") (lit "asterisk"))
             (fun _ => mret tt);;
  mret sound_name.

(** The body of the loop of [_cleanup_old_sounds]. *)
Definition sweep_entry (now : float) (f : pystr) : M unit :=
  if startswith f (lit "akira-alert-") then
    let path := os_path_join SOUNDS_DIR f in
    isfile ← os_path_isfile path;
    if isfile : bool then
      mtime ← os_path_getmtime E path;
      if (float_of_int MAX_SOUND_AGE_SECS <? now - mtime)%float
      then os_remove E path
      else mret tt
    else mret tt
  else mret tt.

Definition _cleanup_old_sounds : M unit :=
  now ← time_time E;
  try_except
    (names ← os_listdir E SOUNDS_DIR;
     for_each names (sweep_entry now))
    (fun _ => mret tt).

(** The text of the call file (the f-string [content]). *)
Definition call_file_content (to sound_name : pystr) : pystr :=
  lit "Channel: PJSIP/" ++ to ++ lit "@" ++ TRUNK cfg ++ nl ++
  lit "Application: Playback" ++ nl ++
  lit "Data: custom/" ++ sound_name ++ nl ++
  lit "MaxRetries: 2" ++ nl ++
  lit "RetryTime: 30" ++ nl ++
  lit "WaitTime: 45" ++ nl ++
  lit "CallerID: " ++ CALLER_ID cfg ++ nl.

(** [int(x)] where it can raise. *)
Definition int_ (x : float) : M Z :=
  match int_of_float x with
  | Some z => mret z
  | None => raise (int_of_float_error x)
  end.

Definition originate_call (to message : pystr) : M json :=
  t ← time_time E;
  ms ← int_ (t * 1000)%float;
  let uid := str_int ms in
  sound_name ← generate_tts message uid;
  let call_file := os_path_join SPOOL_DIR (lit "akira-" ++ uid ++ lit ".call") in
  let tmp_file := path_add call_file (lit ".tmp") in
  let content := call_file_content to sound_name in
  open_w E tmp_file;;
  file_write E tmp_file content;;
  try_except (shutil_chown E tmp_file (lit "asterisk") (lit "asterisk"))
             (fun _ => mret tt);;
  os_rename E tmp_file call_file;;
  _cleanup_old_sounds;;
  mret (JDict [(lit "status", JStr (lit "ok"));
               (lit "to", JStr to);
               (lit "sound", JStr sound_name);
               (lit "call_file", JStr (path_str call_file))]).

(** ** The handler *)

Definition do_GET (path : pystr) : M reply :=
  if pystr_eqb path (lit "/health")
  then _json 200 (JDict [(lit "status", JStr (lit "ok"))])
  else send_error 404 None.

Definition do_POST (rq : request) : M reply :=
  if negb (pystr_eqb (rq_path rq) (lit "/call")) then send_error 404 None
  else if is_empty (RELAY_TOKEN cfg) then
    send_error 500 (Some (lit "FREEPBX_RELAY_TOKEN not set"))
  else if negb (bool_decide (rq_token rq = Some (RELAY_TOKEN cfg))) then
    send_error 403 (Some (lit "Forbidden"))
  else
    match rq_length rq with
    | None => mret Unhandled                     (* ValueError outside any try *)
    | Some _ =>
        match rq_body rq with
        | None => send_error 400 (Some (lit "Invalid JSON"))
        | Some (JDict items) =>
            let to :=
              strip (str (repr_str E) (repr_float E)
                         (dict_get items (lit "to") (JStr []))) in
            let message :=
              strip (str (repr_str E) (repr_float E)
                         (dict_get items (lit "message") (JStr (lit "Alert from Akira")))) in
            if is_empty to then send_error 400 (Some (lit "Missing 'to'"))
            else
              try_except
                (result ← originate_call to message;
                 _json 200 result)
                (fun e => _json 500 (JDict [(lit "status", JStr (lit "error"));
                                            (lit "reason", JStr e)]))
        | Some _ => mret Unhandled               (* no [get] on a non-dict *)
        end
    end.
(** The dispatch of [BaseHTTPRequestHandler] to [do_GET] and [do_POST]. *)
Definition handle (r : http_request) : M reply :=
  match r with
  | GET path => do_GET path
  | POST rq => do_POST rq
  end.

(** [server.serve_forever()] over the requests that arrive: [HTTPServer]
    takes them one after the other; an exception that leaves a handler is
    reported by the server, which goes on with the next request. *)
Fixpoint serve (rqs : list http_request) : M (list reply) :=
  match rqs with
  | [] => mret []
  | r :: rest =>
      x ← handle r;
      xs ← serve rest;
      mret (x :: xs)
  end.
End Program.

End Relay.
Import Relay.

(* ===================================================================== *)
(** * The client skill (skills/call_phone.py) *)

Module Client.

(** The module-level settings read from the process environment at import. *)
Record settings := {
  RELAY_URL : pystr;
  RELAY_TOKEN : pystr;
  OWNER_PHONE : pystr
}.

(** The request handed to [urllib.request.urlopen]: a POST with the JSON
    payload (the value given to [json.dumps]), the two headers and the
    timeout. *)
Record http_post := {
  url : pystr;
  data : json;
  h_content_type : pystr;
  h_relay_token : pystr;
  timeout : Z
}.

(** What comes of the [with urlopen(...)] block: the value [json.loads]
    made of the body of a successful response; an [HTTPError] with its code,
    its reason and what [e.read().decode(errors="replace")] gives in the
    handler, the decoded body or the exception the read raises; or any
    other exception deriving from [Exception] (no route, a timeout, a body
    that is not JSON) with its text. An interrupt of the interpreter
    ([KeyboardInterrupt], [SystemExit]) is not an outcome of the network and
    is not modelled. *)
Inductive outcome :=
  | Body (j : json)
  | HTTPError (code : Z) (reason : pystr) (body : result pystr)
  | Failed (text : pystr).

(** The network and the URL parser of [urllib.request.Request], which
    raises [ValueError] on a URL without a scheme ([request_error] gives its
    text). *)
Record net := {
  request_error : pystr -> option pystr;
  urlopen : http_post -> outcome
}.

Definition error_dict (reason : pystr) : json :=
  JDict [(lit "status", JStr (lit "error")); (lit "reason", JStr reason)].

Section Skill.
Variable S : settings.
Variable W : net.

(** [call_phone(message, to)], with the requests it has sent. *)
Definition call_phone (message to : pystr) : list http_post * result json :=
  if is_empty (RELAY_TOKEN S) then
    ([], Ok (error_dict (lit "FREEPBX_RELAY_TOKEN not set in environment")))
  else if is_empty (RELAY_URL S) then
    ([], Ok (error_dict (lit "FREEPBX_RELAY_URL not set in environment")))
  else if is_empty to then
    ([], Ok (error_dict (lit "No destination phone number " ++ [8212%N] ++
                         lit " set OWNER_PHONE or pass 'to'")))
  else
    let payload := JDict [(lit "to", JStr to); (lit "message", JStr message)] in
    match request_error W (RELAY_URL S ++ lit "/call") with
    | Some e => ([], Raise e)                 (* raised outside the try *)
    | None =>
        let req := {| url := RELAY_URL S ++ lit "/call";
                      data := payload;
                      h_content_type := lit "application/json";
                      h_relay_token := RELAY_TOKEN S;
                      timeout := 15 |} in
        ([req],
         match urlopen W req with
         | Body j => Ok j
         | HTTPError code reason (Ok body) =>
             Ok (JDict [(lit "status", JStr (lit "error"));
                        (lit "code", JInt code);
                        (lit "reason", JStr (reason ++ lit ": " ++ body))])
         | HTTPError code reason (Raise e) =>
             Raise e                          (* raised inside the handler *)
         | Failed text => Ok (error_dict text)
         end)
    end.

(** The [__main__] block on [sys.argv[1:]]: the requests sent and the exit
    status. An exception that nothing catches ends the interpreter with
    status 1. *)
Definition cli (args : list pystr) : list http_post * Z :=
  match args with
  | [] => ([], 1%Z)
  | message :: rest =>
      let to := match rest with
                | t :: _ => t
                | [] => OWNER_PHONE S
                end in
      let '(sent, result) := call_phone message to in
      (sent,
       match result with
       | Ok (JDict items) =>
           match dict_get items (lit "status") JNull with
           | JStr s => if pystr_eqb s (lit "ok") then 0%Z else 1%Z
           | _ => 1%Z
           end
       | Ok _ => 1%Z                          (* AttributeError: no [get] *)
       | Raise _ => 1%Z
       end)
  end.
End Skill.

End Client.

(* ===================================================================== *)
(** * Vocabulary of the statements *)

(** [exec m w P]: running [m] from [w] adds the disk states [tr] (newest
    first) to the history, ends on the newest of them, and [P] holds of
    [tr], the outcome and the final world. *)
Definition exec {A} (m : M A) (w : world) (P : list disk -> result A -> world -> Prop) : Prop :=
  exists tr, seen (m w).2 = tr ++ seen w /\ fs (m w).2 = hd (fs w) tr /\
             tick w <= tick (m w).2 /\ P tr (m w).1 (m w).2.

(** A file is past the retention window at the reading [now] of the clock. *)
Definition expired (now : float) (f : file) : bool :=
  (float_of_int MAX_SOUND_AGE_SECS <? now - f_mtime f)%float.

(** The asset prefix the sweep recognises. *)
Definition is_asset (name : pystr) : bool := startswith name (lit "akira-alert-").

(** [d] is [d0] less some expired regular asset files of the audio directory. *)
Definition swept (now : float) (d0 d : disk) : Prop :=
  spool d = spool d0 /\
  forall n, sounds d !! n = sounds d0 !! n \/
            (sounds d !! n = None /\
             exists f, sounds d0 !! n = Some (Reg f) /\
                       is_asset n = true /\ expired now f = true).

(** The response [send_error] builds. *)
Definition error_page (code : Z) (message : pystr) : response :=
  {| status := code; content_type := lit "text/html;charset=utf-8";
     payload := ErrorPage code (Some message) |}.

(** The response [_json] builds. *)
Definition json_response (code : Z) (data : json) : response :=
  {| status := code; content_type := lit "application/json"; payload := JsonText data |}.

(** The body sent when origination raises [e]. *)
Definition error_body (e : pystr) : json :=
  JDict [(lit "status", JStr (lit "error")); (lit "reason", JStr e)].

(** A character of a decimal rendering: the minus sign or a digit. *)
Definition decimal_char (c : N) : Prop := c = 45%N \/ (48 <= c <= 57)%N.

(** The value a successful origination returns. *)
Definition ok_body (to uid : pystr) : json :=
  JDict [(lit "status", JStr (lit "ok"));
         (lit "to", JStr to);
         (lit "sound", JStr (lit "akira-alert-" ++ uid));
         (lit "call_file",
          JStr (lit "/var/spool/asterisk/outgoing/akira-" ++ uid ++ lit ".call"))].

(** The field of a returned object. *)
Definition field (res : json) (key : pystr) : json :=
  match res with
  | JDict items => dict_get items key JNull
  | _ => JNull
  end.

(** [m] keeps the disk within [T]: started in [T], every state it leaves is
    in [T]. *)
Definition keeps {A} (T : disk -> Prop) (m : M A) : Prop :=
  forall w, T (fs w) -> exec m w (fun tr _ _ => Forall T tr).

(** The pickup directory stays [s0]. *)
Definition spool_is (s0 : gmap pystr node) (d : disk) : Prop := spool d = s0.

(** The names of the call file and of its temporary file. *)
Definition call_name (uid : pystr) : pystr := lit "akira-" ++ uid ++ lit ".call".
Definition tmp_name (uid : pystr) : pystr := call_name uid ++ lit ".tmp".

(** Before the rename: the pickup directory is [s0] at every name but the
    temporary one. *)
Definition untouched (s0 : gmap pystr node) (tmp : pystr) (d : disk) : Prop :=
  forall n, n <> tmp -> spool d !! n = s0 !! n.

(** From the rename on: the final name holds a regular file with the whole
    content, the temporary name is gone, every other name is as in [s0]. *)
Definition published (s0 : gmap pystr node) (tmp final : pystr) (content : pystr)
           (d : disk) : Prop :=
  (forall n, n <> tmp -> n <> final -> spool d !! n = s0 !! n) /\
  spool d !! tmp = None /\
  exists f, spool d !! final = Some (Reg f) /\ f_data f = content.

(** What a run of [originate_call] with the identifier [uid] does to the
    pickup directory: the states it leaves split into those before the rename
    ([pre]) and those from the rename on ([post]), newest first. *)
Definition atomic_run (cfg : config) (to uid : pystr) (d_start : disk)
           (tr : list disk) (r : result json) : Prop :=
  let s0 := spool d_start in
  let content := call_file_content cfg to (lit "akira-alert-" ++ uid) in
  exists post pre,
    tr = post ++ pre /\
    Forall (untouched s0 (tmp_name uid)) pre /\
    Forall (published s0 (tmp_name uid) (call_name uid) content) post /\
    match r with
    | Raise _ => post = []
    | Ok _ =>
        exists post' f,
          spool (hd d_start pre) !! tmp_name uid = Some (Reg f) /\
          f_data f = content /\
          post = post' ++ [put (SPOOL_DIR, call_name uid) (Reg f)
                               (del (SPOOL_DIR, tmp_name uid) (hd d_start pre))]
    end.

(** What a complete sweep at the reading [now] makes of the entry [x] under
    the name [n]: an expired regular asset file goes, anything else stays. *)
Definition purge (now : float) (n : pystr) (x : option node) : option node :=
  match x with
  | Some (Reg f) => if is_asset n && expired now f then None else x
  | _ => x
  end.

(** The request carries no valid token: a GET, which needs none, or a POST
    whose X-Relay-Token header is missing or is not the configured token. *)
Definition lacks_token (cfg : config) (r : http_request) : Prop :=
  match r with
  | GET _ => True
  | POST rq => rq_token rq <> Some (RELAY_TOKEN cfg)
  end.

(** [s.endswith(suffix)] *)
Definition ends_with (s suffix : pystr) : bool := startswith (rev s) (rev suffix).

(** Every entry of the pickup directory whose name does not end in .tmp is as
    in [s0], or is a call file named akira-<uid>.call holding the whole text
    rendered for some destination and that identifier. *)
Definition genuine (cfg : config) (s0 : gmap pystr node) (d : disk) : Prop :=
  forall n, ends_with n (lit ".tmp") = false ->
    spool d !! n = s0 !! n \/
    exists to uid f,
      n = lit "akira-" ++ uid ++ lit ".call" /\
      spool d !! n = Some (Reg f) /\
      f_data f = call_file_content cfg to (lit "akira-alert-" ++ uid).

(** [key in d], with the value. *)
Fixpoint dict_lookup (items : list (pystr * json)) (key : pystr) : option json :=
  match items with
  | [] => None
  | (k, v) :: rest => if pystr_eqb k key then Some v else dict_lookup rest key
  end.

(** What the handler does once [to] and [message] are settled. *)
Definition answer (cfg : config) (E : env) (to message : pystr) : M reply :=
  try_except
    (result ← originate_call cfg E to message;
     _json 200 result)
    (fun e => _json 500 (error_body e)).

(* ===================================================================== *)
(** * Concrete inputs *)

Module Demo.

Definition cfg0 : config :=
  {| RELAY_TOKEN := lit "s3cret"; RELAY_PORT := 18511;
     TRUNK := lit "Twilio"; CALLER_ID := lit "Akira <+15550000000>" |}.

(** The relay started without its token (the module imported, not run as
    a script). *)
Definition cfg_unset : config :=
  {| RELAY_TOKEN := []; RELAY_PORT := 18511;
     TRUNK := lit "Twilio"; CALLER_ID := lit "Akira <+15550000000>" |}.

(** An environment in which nothing fails and the clock stands at [t]. *)
Definition calm (t : float) : env :=
  {| clock := fun _ => t;
     fails := fun _ => false;
     errtext := fun _ => lit "[Errno 13] Permission denied";
     partial := fun _ => [3];
     flite := fun text => 82%N :: text;
     sox := fun raw => 83%N :: raw;
     euid := (lit "root", lit "root");
     repr_str := fun s => lit "'" ++ s ++ lit "'";
     repr_float := fun _ => lit "0.0" |}.

(** The same, except that the operation numbered [k] fails. *)
Definition failing_at (k : nat) (t : float) : env :=
  {| clock := clock (calm t);
     fails := fun n => Nat.eqb n k;
     errtext := errtext (calm t);
     partial := partial (calm t);
     flite := flite (calm t);
     sox := sox (calm t);
     euid := euid (calm t);
     repr_str := repr_str (calm t);
     repr_float := repr_float (calm t) |}.

(** An environment in which nothing fails and each operation takes 2^-20 s
    (about a microsecond), from 1700000000 s on. *)
Definition ticking : env :=
  {| clock := fun n => (1700000000 + float_of_int (Z.of_nat n) / 1048576)%float;
     fails := fun _ => false;
     errtext := errtext (calm 0);
     partial := fun _ => [];
     flite := flite (calm 0);
     sox := sox (calm 0);
     euid := euid (calm 0);
     repr_str := repr_str (calm 0);
     repr_float := repr_float (calm 0) |}.

(** An environment in which nothing fails and the clock jumps two hours
    ahead after the ninth operation of a request (a clock correction). *)
Definition jumping : env :=
  {| clock := fun n => if Nat.leb 10 n then 1700007200%float else 1700000000%float;
     fails := fun _ => false;
     errtext := errtext (calm 0);
     partial := fun _ => [];
     flite := flite (calm 0);
     sox := sox (calm 0);
     euid := euid (calm 0);
     repr_str := repr_str (calm 0);
     repr_float := repr_float (calm 0) |}.

Definition empty_disk : disk := {| sounds := ∅; spool := ∅ |}.

Definition start (d : disk) : world := {| fs := d; tick := 0; seen := [] |}.

Definition wav (mtime : float) : node :=
  Reg {| f_data := [82%N]; f_mtime := mtime; f_owner := (lit "asterisk", lit "asterisk") |}.

(** Three assets written at 2800 s, 6400 s and 8200 s, and a foreign file. *)
Definition old_sounds : disk :=
  {| sounds := <[lit "akira-alert-1.wav" := wav 2800]>
               (<[lit "akira-alert-2.wav" := wav 6400]>
               (<[lit "akira-alert-3.wav" := wav 8200]>
               (<[lit "hold-music.wav" := wav 100]> ∅)));
     spool := ∅ |}.

Definition request0 (token : option pystr) (body : json) : request :=
  {| rq_path := lit "/call"; rq_token := token;
     rq_length := Some 64%Z; rq_body := Some body |}.

Definition body0 : json :=
  JDict [(lit "to", JStr (lit "+15551234567")); (lit "message", JStr (lit "Disk full on NAS"))].

End Demo.

(* ===================================================================== *)
(** * Reasoning about runs *)

Lemma exec_ret {A} (a : A) w (P : list disk -> result A -> world -> Prop) :
  P [] (Ok a) w -> exec (mret a) w P.
Proof. intros HP. exists []. repeat split; auto. Qed.

Lemma exec_raise {A} e w (P : list disk -> result A -> world -> Prop) :
  P [] (Raise e) w -> exec (raise e) w P.
Proof. intros HP. exists []. repeat split; auto. Qed.

Lemma exec_mono {A} (m : M A) w (P P' : list disk -> result A -> world -> Prop) :
  exec m w P ->
  (forall tr r w', m w = (r, w') -> fs w' = hd (fs w) tr -> P tr r w' -> P' tr r w') ->
  exec m w P'.
Proof.
  intros (tr & Hs & Hf & Ht & HP) Himp. exists tr. repeat split; auto.
  apply Himp; auto. by destruct (m w).
Qed.

Lemma exec_bind {A B} (m : M A) (k : A -> M B) w
      (P : list disk -> result B -> world -> Prop) :
  exec m w (fun tr1 r w1 =>
    match r with
    | Ok a => exec (k a) w1 (fun tr2 r2 w2 => P (tr2 ++ tr1) r2 w2)
    | Raise e => P tr1 (Raise e) w1
    end) ->
  exec (m ≫= k) w P.
Proof.
  unfold exec, mbind, M_bind. intros (tr1 & Hs & Hf & Ht & H).
  destruct (m w) as [[a|e] w1]; simpl in *.
  - destruct H as (tr2 & Hs2 & Hf2 & Ht2 & HP).
    exists (tr2 ++ tr1). rewrite Hs2, Hs, Hf2, Hf, app_assoc.
    repeat split; auto; [|lia]. now destruct tr2.
  - exists tr1. repeat split; auto.
Qed.

Lemma exec_try {A} (m : M A) (h : pystr -> M A) w
      (P : list disk -> result A -> world -> Prop) :
  exec m w (fun tr1 r w1 =>
    match r with
    | Ok a => P tr1 (Ok a) w1
    | Raise e => exec (h e) w1 (fun tr2 r2 w2 => P (tr2 ++ tr1) r2 w2)
    end) ->
  exec (try_except m h) w P.
Proof.
  unfold exec, try_except. intros (tr1 & Hs & Hf & Ht & H).
  destruct (m w) as [[a|e] w1]; simpl in *.
  - exists tr1. repeat split; auto.
  - destruct H as (tr2 & Hs2 & Hf2 & Ht2 & HP).
    exists (tr2 ++ tr1). rewrite Hs2, Hs, Hf2, Hf, app_assoc.
    repeat split; auto; [|lia]. now destruct tr2.
Qed.

Lemma hd_rev_last {A} (l : list A) (x : A) : hd x (rev l) = List.last l x.
Proof.
  induction l as [|a l IH] using rev_ind; [done|].
  rewrite rev_app_distr, last_last. done.
Qed.

Lemma exec_prim {A} (act : nat -> disk -> list disk * result A) w
      (P : list disk -> result A -> world -> Prop) :
  P (rev (act (tick w) (fs w)).1) (act (tick w) (fs w)).2
    {| fs := List.last (act (tick w) (fs w)).1 (fs w);
       tick := S (tick w);
       seen := rev (act (tick w) (fs w)).1 ++ seen w |} ->
  exec (prim act) w P.
Proof.
  intros HP. unfold exec, prim.
  destruct (act (tick w) (fs w)) as [ds r]; simpl in *.
  exists (rev ds). repeat split; auto. symmetry. apply hd_rev_last.
Qed.

(** What [exec] says about a run given by its equation. *)
Lemma exec_run {A} (m : M A) w P r w' :
  exec m w P -> m w = (r, w') ->
  exists tr, seen w' = tr ++ seen w /\ fs w' = hd (fs w) tr /\ tick w <= tick w' /\ P tr r w'.
Proof. intros (tr & H) Hm. rewrite Hm in H. by exists tr. Qed.

Lemma exec_final {A} (T : disk -> Prop) (m : M A) w r w'
      (P : list disk -> result A -> world -> Prop) :
  exec m w (fun tr r w' => Forall T tr /\ P tr r w') -> T (fs w) -> m w = (r, w') ->
  T (fs w').
Proof.
  intros H HT Hm. destruct (exec_run _ _ _ _ _ H Hm) as (tr & _ & Hf & _ & HF & _).
  rewrite Hf. destruct tr; simpl; [done|]. by inversion HF.
Qed.

Lemma hd_Forall {A} (T : A -> Prop) (tr : list A) (x y : A) :
  y = hd x tr -> T x -> Forall T tr -> T y.
Proof. intros -> Hx HF. destruct tr; simpl; [done|]. by inversion HF. Qed.

Ltac exec_step :=
  first [ apply exec_bind | apply exec_try | apply exec_prim
        | apply exec_ret | apply exec_raise ]; simpl.

(* ===================================================================== *)
(** * The retention sweep *)

Lemma swept_refl now d : swept now d d.
Proof. split; auto. Qed.

Lemma swept_del now d0 d name f :
  swept now d0 d ->
  sounds d !! name = Some (Reg f) ->
  is_asset name = true -> expired now f = true ->
  swept now d0 (del (os_path_join SOUNDS_DIR name) d).
Proof.
  intros [Hsp Hso] Hf Ha He. split; [done|]. intros n. simpl.
  destruct (decide (n = name)) as [->|Hne].
  - right. rewrite lookup_delete_eq. split; [done|].
    destruct (Hso name) as [Heq|[Hnone _]]; [|congruence].
    exists f. rewrite <- Heq. auto.
  - rewrite lookup_delete_ne by done. apply Hso.
Qed.

Lemma sweep_entry_exec E now d0 name w :
  swept now d0 (fs w) ->
  exec (sweep_entry E now name) w (fun tr _ w' => Forall (swept now d0) tr).
Proof.
  intros Hw. unfold sweep_entry.
  destruct (startswith name (lit "akira-alert-")) eqn:Hp; [|by exec_step].
  do 2 exec_step. unfold entry; simpl.
  destruct (sounds (fs w) !! name) as [[f|t]|] eqn:He; simpl; try by exec_step.
  do 2 exec_step.
  destruct (fails E (S (tick w))); simpl; [done|].
  unfold entry; simpl. rewrite He; simpl.
  destruct (float_of_int MAX_SOUND_AGE_SECS <? now - f_mtime f)%float eqn:Hx;
    [|by exec_step].
  exec_step. destruct (fails E (S (S (tick w)))); simpl; [done|].
  unfold entry; simpl. rewrite He; simpl.
  apply Forall_cons; split; [by eapply swept_del|constructor].
Qed.

Lemma for_each_sweep_exec E now d0 names w :
  swept now d0 (fs w) ->
  exec (for_each names (sweep_entry E now)) w (fun tr _ w' => Forall (swept now d0) tr).
Proof.
  revert w. induction names as [|name names IH]; intros w Hw; simpl.
  - by exec_step.
  - exec_step. eapply exec_mono; [by apply sweep_entry_exec|].
    intros tr1 r1 w1 _ Hf H1. destruct r1 as [[]|e]; [|done].
    eapply exec_mono; [apply IH; by eapply hd_Forall|].
    intros tr2 r2 w2 _ _ H2. by apply Forall_app.
Qed.

Lemma cleanup_exec E w :
  exec (_cleanup_old_sounds E) w (fun tr r w' =>
    r = Ok tt /\ Forall (swept (clock E (tick w)) (fs w)) tr).
Proof.
  unfold _cleanup_old_sounds. do 5 exec_step.
  destruct (fails E (S (tick w))); simpl; [by exec_step|].
  set (w1 := {| fs := fs w; tick := S (S (tick w)); seen := seen w |}).
  eapply exec_mono;
    [apply (for_each_sweep_exec E (clock E (tick w)) (fs w) _ w1), swept_refl|].
  intros tr r w' _ _ H. destruct r as [[]|e]; [|exec_step];
    (split; [done|]); by rewrite !app_nil_r.
Qed.

(** The order of binary64 numbers is asymmetric. *)
Lemma SFcompare_antisym x y :
  SFcompare y x = option_map CompOpp (SFcompare x y).
Proof.
  destruct x as [sx|sx| |sx mx ex], y as [sy|sy| |sy my ey]; simpl;
    try reflexivity; try (by destruct sx); try (by destruct sy);
    try (by destruct sx, sy).
  destruct sx, sy; simpl; try reflexivity;
    rewrite (Z.compare_antisym ex ey); destruct (ex ?= ey)%Z; simpl;
    try reflexivity; f_equal;
    change (Pos.compare_cont Eq mx my) with (mx ?= my)%positive;
    change (Pos.compare_cont Eq my mx) with (my ?= mx)%positive;
    rewrite (Pos.compare_antisym mx my); by destruct (mx ?= my)%positive.
Qed.

Lemma float_ltb_asym (x y : float) :
  (x <? y)%float = true -> (y <? x)%float = false.
Proof.
  rewrite !ltb_spec. unfold SFltb. rewrite (SFcompare_antisym (Prim2SF x) (Prim2SF y)).
  by destruct (SFcompare (Prim2SF x) (Prim2SF y)) as [[]|].
Qed.

(** At 10000 s the asset that is 7200 s old goes; those 3600 s and 1800 s
    old stay, and so does the file without the prefix. *)
Example sweep_scenario :
  let d := fs (_cleanup_old_sounds (Demo.calm 10000) (Demo.start Demo.old_sounds)).2 in
  sounds d !! lit "akira-alert-1.wav" = None /\
  sounds d !! lit "akira-alert-2.wav" = Some (Demo.wav 6400) /\
  sounds d !! lit "akira-alert-3.wav" = Some (Demo.wav 8200) /\
  sounds d !! lit "hold-music.wav" = Some (Demo.wav 100).
Proof. vm_compute. repeat split. Qed.

(** C8. A sweep of the audio directory never raises, whatever fails during
    the listing or a deletion, so the request that runs it goes on; it
    leaves the pickup directory alone; every entry of the audio directory is
    as before or is gone, and an entry that is gone was a regular file with
    the asset prefix whose age, now minus its modification time, exceeded
    MAX_SOUND_AGE_SECS; a regular file younger than that is still there; and
    when no regular asset file is past the limit the disk is unchanged. *)
Theorem sweep_deletes_only_expired_assets (E : env) (w : world) :
  let now := clock E (tick w) in
  let out := _cleanup_old_sounds E w in
  out.1 = Ok tt /\
  (forall B (k : M B), (_cleanup_old_sounds E ;; k) w = k out.2) /\
  spool (fs out.2) = spool (fs w) /\
  (forall n, sounds (fs out.2) !! n = sounds (fs w) !! n \/
             (sounds (fs out.2) !! n = None /\
              exists f, sounds (fs w) !! n = Some (Reg f) /\
                        startswith n (lit "akira-alert-") = true /\
                        (float_of_int MAX_SOUND_AGE_SECS <? now - f_mtime f)%float = true)) /\
  (forall n f, sounds (fs w) !! n = Some (Reg f) ->
               (now - f_mtime f <? float_of_int MAX_SOUND_AGE_SECS)%float = true ->
               sounds (fs out.2) !! n = Some (Reg f)) /\
  ((forall n f, sounds (fs w) !! n = Some (Reg f) ->
                startswith n (lit "akira-alert-") = true ->
                (float_of_int MAX_SOUND_AGE_SECS <? now - f_mtime f)%float = false) ->
   fs out.2 = fs w).
Proof.
  intros now out.
  destruct (cleanup_exec E w) as (tr & Hs & Hf & _ & Hr & HF).
  fold out in Hs, Hf, Hr.
  assert (Hsw : swept now (fs w) (fs out.2)).
  { eapply hd_Forall; [exact Hf|apply swept_refl|exact HF]. }
  destruct Hsw as [Hsp Hso].
  split; [done|]. split.
  { intros B k. unfold mbind, M_bind. fold out.
    destruct out as [r w']. simpl in Hr. by subst r. }
  split; [done|]. split; [exact Hso|]. split.
  - intros n f Hn Hlt. destruct (Hso n) as [->|[_ (f' & Hn' & _ & Hx)]]; [done|].
    rewrite Hn in Hn'. injection Hn' as <-.
    apply float_ltb_asym in Hlt. unfold expired in Hx. congruence.
  - intros Hnone.
    assert (Heq : sounds (fs out.2) = sounds (fs w)).
    { apply map_eq. intros n. destruct (Hso n) as [->|[_ (f & Hn & Ha & Hx)]]; [done|].
      unfold expired in Hx. rewrite (Hnone n f Hn Ha) in Hx. discriminate. }
    destruct (fs out.2), (fs w); simpl in *. by subst.
Qed.

(** C9. A regular file of the audio directory, with the asset prefix, whose
    age is exactly MAX_SOUND_AGE_SECS is not past the limit (the test is a
    strict [>]) and is still there after the sweep. *)
Theorem sweep_keeps_file_at_threshold (E : env) (w : world) (n : pystr) (f : file) :
  sounds (fs w) !! n = Some (Reg f) ->
  startswith n (lit "akira-alert-") = true ->
  (clock E (tick w) - f_mtime f)%float = float_of_int MAX_SOUND_AGE_SECS ->
  expired (clock E (tick w)) f = false /\
  sounds (fs (_cleanup_old_sounds E w).2) !! n = Some (Reg f).
Proof.
  intros Hn _ Hage.
  assert (Hx : expired (clock E (tick w)) f = false).
  { unfold expired. rewrite Hage. reflexivity. }
  split; [exact Hx|].
  destruct (cleanup_exec E w) as (tr & _ & Hf & _ & _ & HF).
  assert (Hsw : swept (clock E (tick w)) (fs w) (fs (_cleanup_old_sounds E w).2)).
  { eapply hd_Forall; [exact Hf|apply swept_refl|exact HF]. }
  destruct Hsw as [_ Hso].
  destruct (Hso n) as [->|[_ (f' & Hn' & _ & Hx')]]; [done|].
  rewrite Hn in Hn'. injection Hn' as <-. congruence.
Qed.

Lemma sweep_keeps_file_at_threshold_witness :
  expired 10000 {| f_data := [82%N]; f_mtime := 6400;
                   f_owner := (lit "asterisk", lit "asterisk") |} = false /\
  sounds (fs (_cleanup_old_sounds (Demo.calm 10000) (Demo.start Demo.old_sounds)).2)
    !! lit "akira-alert-2.wav" = Some (Demo.wav 6400).
Proof.
  apply (sweep_keeps_file_at_threshold (Demo.calm 10000) (Demo.start Demo.old_sounds)
           (lit "akira-alert-2.wav")
           {| f_data := [82%N]; f_mtime := 6400;
              f_owner := (lit "asterisk", lit "asterisk") |});
    vm_compute; reflexivity.
Defined.

(* ===================================================================== *)
(** * The handler: authentication *)

Lemma pystr_eqb_refl s : pystr_eqb s s = true.
Proof. unfold pystr_eqb. by apply bool_decide_eq_true. Qed.

Lemma is_empty_false s : s <> [] -> is_empty s = false.
Proof. by destruct s. Qed.

Lemma is_empty_true s : is_empty s = true -> s = [].
Proof. by destruct s. Qed.

(** C2. A POST to /call whose X-Relay-Token header is missing or is not the
    configured token, the token being set, is answered 403, and the world
    comes back as it was: no operation ran (the operation counter has not
    moved), so nothing was synthesised and no file was written. *)
Theorem bad_token_is_forbidden (cfg : config) (E : env) (rq : request) (w : world) :
  rq_path rq = lit "/call" ->
  RELAY_TOKEN cfg <> [] ->
  rq_token rq <> Some (RELAY_TOKEN cfg) ->
  do_POST cfg E rq w = (Ok (Sent (error_page 403 (lit "Forbidden"))), w).
Proof.
  intros Hp Ht Hh. unfold do_POST.
  rewrite Hp, pystr_eqb_refl, (is_empty_false _ Ht). simpl.
  by rewrite (bool_decide_eq_false_2 _ Hh).
Qed.

Lemma bad_token_is_forbidden_witness :
  do_POST Demo.cfg0 (Demo.calm 1700000000) (Demo.request0 (Some (lit "guess")) Demo.body0)
          (Demo.start Demo.empty_disk)
  = (Ok (Sent (error_page 403 (lit "Forbidden"))), Demo.start Demo.empty_disk)
  /\
  do_POST Demo.cfg0 (Demo.calm 1700000000) (Demo.request0 None Demo.body0)
          (Demo.start Demo.empty_disk)
  = (Ok (Sent (error_page 403 (lit "Forbidden"))), Demo.start Demo.empty_disk).
Proof.
  split.
  - apply (bad_token_is_forbidden Demo.cfg0 (Demo.calm 1700000000)
             (Demo.request0 (Some (lit "guess")) Demo.body0) (Demo.start Demo.empty_disk));
      [reflexivity | discriminate | discriminate].
  - apply (bad_token_is_forbidden Demo.cfg0 (Demo.calm 1700000000)
             (Demo.request0 None Demo.body0) (Demo.start Demo.empty_disk));
      [reflexivity | discriminate | discriminate].
Defined.

(** Whatever the request, [do_POST] itself never raises. *)
Lemma do_POST_returns cfg E rq w : exists rp w', do_POST cfg E rq w = (Ok rp, w').
Proof.
  unfold do_POST.
  destruct (negb _); [by eexists _, _|].
  destruct (is_empty _); [by eexists _, _|].
  destruct (negb _); [by eexists _, _|].
  destruct (rq_length rq); [|by eexists _, _].
  destruct (rq_body rq) as [[]|]; try by eexists _, _.
  destruct (is_empty _); [by eexists _, _|].
  unfold try_except, mbind, M_bind.
  destruct (originate_call _ _ _ _ _) as [[res|e] w1]; by eexists _, _.
Qed.

(** C6, as the code has it. A POST to /call while the token is unset is
    answered 500 by [send_error]: the body is the server's HTML error page
    with the message "FREEPBX_RELAY_TOKEN not set", not a JSON object, and
    nothing is executed. The JSON body with status "error" and a reason is
    what every other 500 carries: with the token set, a 500 is always the
    JSON error body of a failed origination. *)
Theorem unset_token_is_500_error_page (cfg : config) (E : env) (rq : request) (w : world) :
  rq_path rq = lit "/call" ->
  (RELAY_TOKEN cfg = [] ->
   do_POST cfg E rq w
   = (Ok (Sent (error_page 500 (lit "FREEPBX_RELAY_TOKEN not set"))), w)) /\
  (RELAY_TOKEN cfg <> [] ->
   forall r w', do_POST cfg E rq w = (Ok (Sent r), w') -> status r = 500%Z ->
                exists e, r = json_response 500 (error_body e)).
Proof.
  intros Hp. unfold do_POST. rewrite Hp, pystr_eqb_refl. simpl. split.
  - by intros ->.
  - intros Ht r w'. rewrite (is_empty_false _ Ht).
    destruct (negb _); [intros [= <- _]; discriminate|].
    destruct (rq_length rq); [|discriminate].
    destruct (rq_body rq) as [[]|]; try discriminate;
      try (intros [= <- _]; discriminate).
    destruct (is_empty _); [intros [= <- _]; discriminate|].
    unfold try_except, mbind, M_bind.
    destruct (originate_call _ _ _ _ _) as [[res|e] w1].
    + intros [= <- _]; discriminate.
    + intros [= <- _] _. by exists e.
Qed.

Lemma unset_token_is_500_error_page_witness :
  (RELAY_TOKEN Demo.cfg_unset = [] ->
   do_POST Demo.cfg_unset (Demo.calm 1700000000)
           (Demo.request0 (Some (lit "s3cret")) Demo.body0) (Demo.start Demo.empty_disk)
   = (Ok (Sent (error_page 500 (lit "FREEPBX_RELAY_TOKEN not set"))),
      Demo.start Demo.empty_disk)) /\
  (RELAY_TOKEN Demo.cfg_unset <> [] ->
   forall r w',
     do_POST Demo.cfg_unset (Demo.calm 1700000000)
             (Demo.request0 (Some (lit "s3cret")) Demo.body0) (Demo.start Demo.empty_disk)
     = (Ok (Sent r), w') ->
     status r = 500%Z -> exists e, r = json_response 500 (error_body e)).
Proof.
  apply (unset_token_is_500_error_page Demo.cfg_unset (Demo.calm 1700000000)
           (Demo.request0 (Some (lit "s3cret")) Demo.body0) (Demo.start Demo.empty_disk)).
  reflexivity.
Defined.

(** C6 as the spec words it fails: with the token unset the 500 response
    carries no JSON at all. *)
Lemma unset_token_reply_is_not_json :
  RELAY_TOKEN Demo.cfg_unset = [] /\
  exists r,
    (do_POST Demo.cfg_unset (Demo.calm 1700000000)
             (Demo.request0 (Some (lit "s3cret")) Demo.body0)
             (Demo.start Demo.empty_disk)).1 = Ok (Sent r) /\
    status r = 500%Z /\
    forall data, payload r <> JsonText data.
Proof.
  split; [reflexivity|].
  exists (error_page 500 (lit "FREEPBX_RELAY_TOKEN not set")).
  repeat split; discriminate.
Qed.

(* ===================================================================== *)
(** * Decimal rendering *)

Lemma lit_inj s1 s2 : lit s1 = lit s2 -> s1 = s2.
Proof.
  unfold lit. intros H.
  rewrite <- (string_of_list_ascii_of_string s1), <- (string_of_list_ascii_of_string s2).
  f_equal. revert H. generalize (list_ascii_of_string s1) (list_ascii_of_string s2).
  induction l as [|a l IH]; intros [|b l']; simpl; try discriminate; [done|].
  intros [= Hab Hl]. f_equal; [|by apply IH].
  by rewrite <- (ascii_N_embedding a), <- (ascii_N_embedding b), Hab.
Qed.

(** [str] of an integer determines the integer. *)
Lemma str_int_inj z1 z2 : str_int z1 = str_int z2 -> z1 = z2.
Proof.
  unfold str_int. intros H%lit_inj.
  apply (f_equal NilEmpty.int_of_string) in H. rewrite !NilEmpty.isi in H.
  injection H as H. by rewrite <- (DecimalZ.of_to z1), <- (DecimalZ.of_to z2), H.
Qed.

Lemma string_of_uint_decimal d :
  Forall decimal_char (lit (NilEmpty.string_of_uint d)).
Proof.
  unfold lit. induction d; simpl; constructor; auto; right; simpl; lia.
Qed.

Lemma str_int_decimal z : Forall decimal_char (str_int z).
Proof.
  unfold str_int. destruct (Z.to_int z) as [d|d]; simpl.
  - apply string_of_uint_decimal.
  - constructor; [by left|]. apply string_of_uint_decimal.
Qed.

Lemma str_int_single_line z : single_line (str_int z) = true.
Proof.
  unfold single_line. apply forallb_forall. intros c Hin.
  pose proof (str_int_decimal z) as HF. rewrite Forall_forall in HF.
  apply list_elem_of_In in Hin.
  apply negb_true_iff, N.eqb_neq. destruct (HF _ Hin) as [?|?]; lia.
Qed.

(* ===================================================================== *)
(** * Outcomes of a run, read backwards *)

Lemma bind_ok {A B} (m : M A) (k : A -> M B) w b w' :
  (m ≫= k) w = (Ok b, w') ->
  exists a w1, m w = (Ok a, w1) /\ k a w1 = (Ok b, w').
Proof.
  unfold mbind, M_bind. destruct (m w) as [[a|e] w1]; [|discriminate].
  intros H. by exists a, w1.
Qed.

Lemma bind_raise {A B} (m : M A) (k : A -> M B) w e w' :
  (m ≫= k) w = (Raise e, w') ->
  m w = (Raise e, w') \/ exists a w1, m w = (Ok a, w1) /\ k a w1 = (Raise e, w').
Proof.
  unfold mbind, M_bind. destruct (m w) as [[a|e1] w1].
  - intros H. right. by exists a, w1.
  - intros [= <- <-]. by left.
Qed.

Lemma ret_ok {A} (a b : A) w w' : (mret a : M A) w = (Ok b, w') -> a = b /\ w = w'.
Proof. by intros [= <- <-]. Qed.

Lemma time_time_run E w :
  time_time E w = (Ok (clock E (tick w)),
                   {| fs := fs w; tick := S (tick w); seen := seen w |}).
Proof. reflexivity. Qed.

Lemma int_ok x z w w' :
  int_ x w = (Ok z, w') -> int_of_float x = Some z /\ w = w'.
Proof.
  unfold int_. destruct (int_of_float x); [|discriminate]. by intros [= <- <-].
Qed.

Lemma generate_tts_ok E message uid w s w' :
  generate_tts E message uid w = (Ok s, w') -> s = lit "akira-alert-" ++ uid.
Proof.
  unfold generate_tts. intros H.
  repeat (apply bind_ok in H as (? & ? & _ & H)).
  by apply ret_ok in H as [<- _].
Qed.

Lemma originate_call_ok cfg E to message w res w' :
  originate_call cfg E to message w = (Ok res, w') ->
  exists ms, int_of_float (clock E (tick w) * 1000)%float = Some ms /\
             res = ok_body to (str_int ms).
Proof.
  unfold originate_call. intros H.
  apply bind_ok in H as (t & w1 & Ht & H). rewrite time_time_run in Ht.
  injection Ht as <- <-.
  apply bind_ok in H as (ms & w2 & Hms & H). apply int_ok in Hms as [Hms <-].
  apply bind_ok in H as (s & w3 & Hs & H). apply generate_tts_ok in Hs as ->.
  repeat (apply bind_ok in H as (? & ? & _ & H)).
  apply ret_ok in H as [<- _]. exists ms. split; [done|].
  reflexivity.
Qed.

(* ===================================================================== *)
(** * The success response *)

(** C5, as the code has it. A POST to /call answered 200 carries the JSON
    object that [originate_call] returned, which has four fields, in this
    order: status "ok", to (the stripped [to] of the request), sound (the
    asset name) and call_file (the path of the published call file). *)
Theorem success_body_fields (cfg : config) (E : env) (rq : request) (w : world)
        (r : response) :
  (do_POST cfg E rq w).1 = Ok (Sent r) ->
  status r = 200%Z ->
  exists items ms,
    rq_body rq = Some (JDict items) /\
    int_of_float (clock E (tick w) * 1000)%float = Some ms /\
    let to := strip (str (repr_str E) (repr_float E)
                         (dict_get items (lit "to") (JStr []))) in
    let uid := str_int ms in
    content_type r = lit "application/json" /\
    payload r =
      JsonText
        (JDict [(lit "status", JStr (lit "ok"));
                (lit "to", JStr to);
                (lit "sound", JStr (lit "akira-alert-" ++ uid));
                (lit "call_file",
                 JStr (lit "/var/spool/asterisk/outgoing/akira-" ++ uid ++ lit ".call"))]).
Proof.
  unfold do_POST.
  destruct (negb (pystr_eqb _ _)); [intros [= <-]; discriminate|].
  destruct (is_empty (RELAY_TOKEN cfg)); [intros [= <-]; discriminate|].
  destruct (negb (bool_decide _)); [intros [= <-]; discriminate|].
  destruct (rq_length rq); [|discriminate].
  destruct (rq_body rq) as [[]|]; try discriminate;
    try (intros [= <-]; discriminate).
  destruct (is_empty _); [intros [= <-]; discriminate|].
  unfold try_except, mbind, M_bind.
  destruct (originate_call _ _ _ _ _) as [[res|e] w1] eqn:Ho; simpl.
  - intros [= <-] _. apply originate_call_ok in Ho as (ms & Hms & ->).
    by exists items, ms.
  - intros [= <-]; discriminate.
Qed.

Lemma success_body_fields_witness :
  exists items ms,
    rq_body (Demo.request0 (Some (lit "s3cret")) Demo.body0) = Some (JDict items) /\
    int_of_float (clock (Demo.calm 1700000000.0078125)
                        (tick (Demo.start Demo.empty_disk)) * 1000)%float = Some ms /\
    let to := strip (str (repr_str (Demo.calm 1700000000.0078125))
                         (repr_float (Demo.calm 1700000000.0078125))
                         (dict_get items (lit "to") (JStr []))) in
    let uid := str_int ms in
    content_type (json_response 200 (ok_body (lit "+15551234567") (lit "1700000000007")))
    = lit "application/json" /\
    payload (json_response 200 (ok_body (lit "+15551234567") (lit "1700000000007"))) =
      JsonText
        (JDict [(lit "status", JStr (lit "ok"));
                (lit "to", JStr to);
                (lit "sound", JStr (lit "akira-alert-" ++ uid));
                (lit "call_file",
                 JStr (lit "/var/spool/asterisk/outgoing/akira-" ++ uid ++ lit ".call"))]).
Proof.
  apply (success_body_fields Demo.cfg0 (Demo.calm 1700000000.0078125)
           (Demo.request0 (Some (lit "s3cret")) Demo.body0)
           (Demo.start Demo.empty_disk)
           (json_response 200 (ok_body (lit "+15551234567") (lit "1700000000007"))));
    vm_compute; reflexivity.
Defined.

(** C5 as the spec words it fails: the body of a 200 is not the object with
    exactly the three fields status, to and sound; it carries call_file too. *)
Lemma success_body_has_four_fields :
  exists r,
    (do_POST Demo.cfg0 (Demo.calm 1700000000.0078125)
             (Demo.request0 (Some (lit "s3cret")) Demo.body0)
             (Demo.start Demo.empty_disk)).1 = Ok (Sent r) /\
    status r = 200%Z /\
    payload r =
      JsonText
        (JDict [(lit "status", JStr (lit "ok"));
                (lit "to", JStr (lit "+15551234567"));
                (lit "sound", JStr (lit "akira-alert-1700000000007"));
                (lit "call_file",
                 JStr (lit "/var/spool/asterisk/outgoing/akira-1700000000007.call"))]) /\
    payload r <>
      JsonText
        (JDict [(lit "status", JStr (lit "ok"));
                (lit "to", JStr (lit "+15551234567"));
                (lit "sound", JStr (lit "akira-alert-1700000000007"))]).
Proof.
  exists (json_response 200 (ok_body (lit "+15551234567") (lit "1700000000007"))).
  split; [vm_compute; reflexivity|].
  split; [reflexivity|]. split; [reflexivity|]. discriminate.
Qed.

(* ===================================================================== *)
(** * The identifier of a request *)

(** C3, as the code has it. The identifier is the decimal rendering of the
    clock reading in whole milliseconds, [str(int(time.time() * 1000))], and
    nothing else: two successful originations of one process name their asset
    after their readings, and the two names are equal exactly when the two
    readings fall in the same millisecond. *)
Theorem uid_is_millisecond_reading (cfg : config) (E : env)
        (to1 message1 to2 message2 : pystr) (w1 w2 : world) (r1 r2 : json) :
  (originate_call cfg E to1 message1 w1).1 = Ok r1 ->
  (originate_call cfg E to2 message2 w2).1 = Ok r2 ->
  exists ms1 ms2,
    int_of_float (clock E (tick w1) * 1000)%float = Some ms1 /\
    int_of_float (clock E (tick w2) * 1000)%float = Some ms2 /\
    field r1 (lit "sound") = JStr (lit "akira-alert-" ++ str_int ms1) /\
    field r2 (lit "sound") = JStr (lit "akira-alert-" ++ str_int ms2) /\
    (field r1 (lit "sound") = field r2 (lit "sound") <-> ms1 = ms2).
Proof.
  intros H1 H2.
  destruct (originate_call cfg E to1 message1 w1) as [x1 w1'] eqn:Ho1.
  destruct (originate_call cfg E to2 message2 w2) as [x2 w2'] eqn:Ho2.
  simpl in H1, H2. subst x1 x2.
  apply originate_call_ok in Ho1 as (ms1 & Hms1 & ->).
  apply originate_call_ok in Ho2 as (ms2 & Hms2 & ->).
  exists ms1, ms2. repeat split; auto.
  - change (field (ok_body to1 (str_int ms1)) (lit "sound"))
      with (JStr (lit "akira-alert-" ++ str_int ms1)).
    change (field (ok_body to2 (str_int ms2)) (lit "sound"))
      with (JStr (lit "akira-alert-" ++ str_int ms2)).
    intros [= H]. by apply str_int_inj.
  - by intros ->.
Qed.

Lemma uid_is_millisecond_reading_witness :
  exists ms1 ms2,
    int_of_float (clock Demo.ticking (tick (Demo.start Demo.empty_disk)) * 1000)%float
    = Some ms1 /\
    int_of_float (clock Demo.ticking
                    (tick {| fs := Demo.empty_disk; tick := 2000; seen := [] |}) * 1000)%float
    = Some ms2 /\
    field (ok_body (lit "+15551234567") (lit "1700000000000")) (lit "sound")
    = JStr (lit "akira-alert-" ++ str_int ms1) /\
    field (ok_body (lit "+15551234567") (lit "1700000000001")) (lit "sound")
    = JStr (lit "akira-alert-" ++ str_int ms2) /\
    (field (ok_body (lit "+15551234567") (lit "1700000000000")) (lit "sound")
     = field (ok_body (lit "+15551234567") (lit "1700000000001")) (lit "sound")
     <-> ms1 = ms2).
Proof.
  apply (uid_is_millisecond_reading Demo.cfg0 Demo.ticking
           (lit "+15551234567") (lit "first") (lit "+15551234567") (lit "second")
           (Demo.start Demo.empty_disk)
           {| fs := Demo.empty_disk; tick := 2000; seen := [] |}
           (ok_body (lit "+15551234567") (lit "1700000000000"))
           (ok_body (lit "+15551234567") (lit "1700000000001")));
    vm_compute; reflexivity.
Defined.

(** C3 as the spec words it fails: two originations of one process, the
    second started when the first has returned and some thirteen
    microseconds after it, both succeed under the same identifier; the
    second replaces the asset and the call file of the first. *)
Lemma same_millisecond_same_uid :
  let w0 := Demo.start Demo.empty_disk in
  let out1 := originate_call Demo.cfg0 Demo.ticking (lit "+15551234567") (lit "first") w0 in
  let out2 := originate_call Demo.cfg0 Demo.ticking (lit "+15557654321") (lit "second")
                             out1.2 in
  (clock Demo.ticking (tick w0) <? clock Demo.ticking (tick out1.2))%float = true /\
  out1.1 = Ok (ok_body (lit "+15551234567") (lit "1700000000000")) /\
  out2.1 = Ok (ok_body (lit "+15557654321") (lit "1700000000000")) /\
  field (ok_body (lit "+15551234567") (lit "1700000000000")) (lit "sound")
  = field (ok_body (lit "+15557654321") (lit "1700000000000")) (lit "sound").
Proof. vm_compute. repeat split. Qed.

(* ===================================================================== *)
(** * Publishing the call file *)

Lemma keeps_ret {A} T (a : A) : keeps T (mret a).
Proof. intros w _. by exec_step. Qed.

Lemma keeps_bind {A B} T (m : M A) (k : A -> M B) :
  keeps T m -> (forall a, keeps T (k a)) -> keeps T (m ≫= k).
Proof.
  intros Hm Hk w HT. exec_step. eapply exec_mono; [by apply Hm|].
  intros tr1 r1 w1 _ Hf H1. destruct r1 as [a|e]; [|done].
  eapply exec_mono; [apply Hk; by eapply hd_Forall|].
  intros tr2 r2 w2 _ _ H2. by apply Forall_app.
Qed.

Lemma keeps_try {A} T (m : M A) (h : pystr -> M A) :
  keeps T m -> (forall e, keeps T (h e)) -> keeps T (try_except m h).
Proof.
  intros Hm Hh w HT. exec_step. eapply exec_mono; [by apply Hm|].
  intros tr1 r1 w1 _ Hf H1. destruct r1 as [a|e]; [done|].
  eapply exec_mono; [apply Hh; by eapply hd_Forall|].
  intros tr2 r2 w2 _ _ H2. by apply Forall_app.
Qed.

Lemma keeps_prim {A} T (act : nat -> disk -> list disk * result A) :
  (forall n d, T d -> Forall T (act n d).1) -> keeps T (prim act).
Proof. intros Hact w HT. exec_step. apply Forall_rev. by apply Hact. Qed.

Lemma emit_sounds E name data n d s0 :
  spool_is s0 d -> Forall (spool_is s0) (emit E (SOUNDS_DIR, name) data n d).1.
Proof.
  intros Hd. unfold emit.
  assert (Hm : forall l, Forall (spool_is s0)
    (map (fun k => put (SOUNDS_DIR, name)
                       (Reg {| f_data := take k data; f_mtime := clock E n;
                               f_owner := match entry d (SOUNDS_DIR, name) with
                                          | Some (Reg f) => f_owner f
                                          | _ => euid E
                                          end |}) d) l)).
  { induction l; simpl; constructor; auto. }
  destruct (fails E n); simpl; [apply Hm|].
  apply Forall_app. split; [apply Hm|]. by repeat constructor.
Qed.

Lemma generate_tts_keeps E message uid s0 :
  keeps (spool_is s0) (generate_tts E message uid).
Proof.
  unfold generate_tts.
  repeat (first [ apply keeps_bind; [|intros ?] | apply keeps_try; [|intros ?]
                | apply keeps_ret ]);
    apply keeps_prim; intros n d Hd; simpl.
  - by destruct (fails E n).
  - by apply emit_sounds.
  - destruct (entry d _) as [[f|t]|]; simpl; auto. by apply emit_sounds.
  - destruct (fails E n); simpl; [done|].
    destruct (entry d _); simpl; by repeat constructor.
  - destruct (fails E n); simpl; [done|].
    destruct (entry d _) as [[f|t]|]; simpl; by repeat constructor.
Qed.

Lemma cleanup_keeps E s0 : keeps (spool_is s0) (_cleanup_old_sounds E).
Proof.
  intros w Hw. eapply exec_mono; [apply cleanup_exec|].
  intros tr r w' _ _ [_ HF]. eapply Forall_impl; [exact HF|].
  intros d [Hsp _]. unfold spool_is in *. congruence.
Qed.

Lemma tmp_name_neq uid : tmp_name uid <> call_name uid.
Proof.
  unfold tmp_name. intros H. apply (f_equal length) in H.
  rewrite length_app in H. simpl in H. lia.
Qed.

Lemma cleanup_spool E w :
  exec (_cleanup_old_sounds E) w (fun tr r _ =>
    r = Ok tt /\ Forall (spool_is (spool (fs w))) tr).
Proof.
  eapply exec_mono; [apply cleanup_exec|].
  intros tr r w' _ _ [Hr HF]. split; [done|]. eapply Forall_impl; [exact HF|].
  by intros d [Hsp _].
Qed.

Lemma published_rename s0 tmp final f d :
  tmp <> final -> untouched s0 tmp d ->
  published s0 tmp final (f_data f)
            (put (SPOOL_DIR, final) (Reg f) (del (SPOOL_DIR, tmp) d)).
Proof.
  intros Hne Hu. unfold published; simpl. repeat split.
  - intros n Hn1 Hn2. rewrite lookup_insert_ne, lookup_delete_ne by done. by apply Hu.
  - by rewrite lookup_insert_ne, lookup_delete_eq.
  - exists f. by rewrite lookup_insert_eq.
Qed.

Lemma published_same_spool s0 tmp final content d d' :
  published s0 tmp final content d -> spool d' = spool d ->
  published s0 tmp final content d'.
Proof. unfold published. by intros H ->. Qed.

(** The rename and what follows it. *)
Lemma publish_exec E s0 tmp final (res : json) w f :
  tmp <> final ->
  untouched s0 tmp (fs w) ->
  spool (fs w) !! tmp = Some (Reg f) ->
  exec (os_rename E (SPOOL_DIR, tmp) (SPOOL_DIR, final);;
        _cleanup_old_sounds E;;
        mret res) w
    (fun tr r _ =>
       match r with
       | Raise _ => tr = []
       | Ok _ =>
           exists post,
             tr = post ++ [put (SPOOL_DIR, final) (Reg f) (del (SPOOL_DIR, tmp) (fs w))] /\
             Forall (published s0 tmp final (f_data f)) tr
       end).
Proof.
  intros Hne Hu Hf. do 2 exec_step.
  destruct (fails E (tick w)); simpl; [done|].
  unfold entry; simpl. rewrite Hf; simpl.
  exec_step. eapply exec_mono; [apply cleanup_spool|].
  intros tr r w' _ _ [-> HF]. simpl in HF. exec_step.
  exists tr. split; [done|]. apply Forall_app. split.
  - eapply Forall_impl; [exact HF|]. intros d Hd.
    eapply published_same_spool; [by apply (published_rename s0 tmp final f (fs w))|].
    exact Hd.
  - apply Forall_cons; split; [by apply published_rename|constructor].
Qed.

Lemma hd_app {A} (x : A) (l1 l2 : list A) : hd x (l1 ++ l2) = hd (hd x l2) l1.
Proof. by destruct l1. Qed.

Lemma untouched_put s0 tmp x d :
  untouched s0 tmp d -> untouched s0 tmp (put (SPOOL_DIR, tmp) x d).
Proof. intros Hu n Hn. simpl. rewrite lookup_insert_ne by done. by apply Hu. Qed.

Lemma open_exec E s0 tmp w :
  untouched s0 tmp (fs w) ->
  exec (open_w E (SPOOL_DIR, tmp)) w (fun tr _ _ => Forall (untouched s0 tmp) tr).
Proof.
  intros Hu. exec_step. destruct (fails E (tick w)); simpl; [done|].
  apply Forall_cons; split; [by apply untouched_put|constructor].
Qed.

Lemma write_exec E s0 tmp content w :
  untouched s0 tmp (fs w) ->
  exec (file_write E (SPOOL_DIR, tmp) content) w (fun tr r w' =>
    Forall (untouched s0 tmp) tr /\
    match r with
    | Ok _ => exists f, spool (fs w') !! tmp = Some (Reg f) /\ f_data f = content
    | Raise _ => True
    end).
Proof.
  intros Hu. exec_step. unfold emit.
  set (owner := match entry (fs w) (SPOOL_DIR, tmp) with
                | Some (Reg f) => f_owner f
                | _ => euid E
                end).
  set (upto := fun k => put (SPOOL_DIR, tmp)
                 (Reg {| f_data := take k content; f_mtime := clock E (tick w);
                         f_owner := owner |}) (fs w)).
  assert (Hm : Forall (untouched s0 tmp) (map upto (partial E (tick w)))).
  { apply Forall_map, Forall_forall. intros k _. by apply untouched_put. }
  destruct (fails E (tick w)); simpl.
  - split; [by apply Forall_rev|done].
  - rewrite last_last. split.
    + apply Forall_rev, Forall_app. split; [done|].
      apply Forall_cons; split; [by apply untouched_put|constructor].
    + eexists. simpl. by rewrite lookup_insert_eq.
Qed.

Lemma chown_exec E s0 tmp user group w :
  untouched s0 tmp (fs w) ->
  exec (try_except (shutil_chown E (SPOOL_DIR, tmp) user group) (fun _ => mret tt)) w
    (fun tr r w' =>
       r = Ok tt /\ Forall (untouched s0 tmp) tr /\
       forall f, spool (fs w) !! tmp = Some (Reg f) ->
                 exists f', spool (fs w') !! tmp = Some (Reg f') /\ f_data f' = f_data f).
Proof.
  intros Hu. do 2 exec_step. destruct (fails E (tick w)); simpl.
  { exec_step. repeat split; [constructor|]. intros f Hf. by exists f. }
  unfold entry; simpl.
  destruct (spool (fs w) !! tmp) as [[f|t]|] eqn:Hf; simpl.
  - repeat split.
    + apply Forall_cons; split; [by apply untouched_put|constructor].
    + intros f0 [= <-]. eexists. by rewrite lookup_insert_eq.
  - repeat split; [constructor|]. intros f0 [=].
  - exec_step. repeat split; [constructor|]. intros f0 [=].
Qed.

(** The origination once the identifier is known. *)
Lemma stage_exec E s0 tmp final content (res : json) w :
  tmp <> final ->
  untouched s0 tmp (fs w) ->
  exec (open_w E (SPOOL_DIR, tmp);;
        file_write E (SPOOL_DIR, tmp) content;;
        try_except (shutil_chown E (SPOOL_DIR, tmp) (lit "asterisk") (lit "asterisk"))
                   (fun _ => mret tt);;
        os_rename E (SPOOL_DIR, tmp) (SPOOL_DIR, final);;
        _cleanup_old_sounds E;;
        mret res) w
    (fun tr r _ =>
       exists post pre,
         tr = post ++ pre /\
         Forall (untouched s0 tmp) pre /\
         Forall (published s0 tmp final content) post /\
         match r with
         | Raise _ => post = []
         | Ok _ =>
             exists post' f,
               spool (hd (fs w) pre) !! tmp = Some (Reg f) /\ f_data f = content /\
               post = post' ++ [put (SPOOL_DIR, final) (Reg f)
                                    (del (SPOOL_DIR, tmp) (hd (fs w) pre))]
         end).
Proof.
  intros Hne Hu. exec_step.
  eapply exec_mono; [by apply open_exec|].
  intros tr1 r1 w1 _ Hf1 H1. destruct r1 as [[]|e]; [|by exists [], tr1].
  assert (Hu1 : untouched s0 tmp (fs w1)) by by eapply hd_Forall.
  exec_step. eapply exec_mono; [by apply write_exec|].
  intros tr2 r2 w2 _ Hf2 [H2 Hc]. destruct r2 as [[]|e].
  2:{ exists [], (tr2 ++ tr1). repeat split; auto. by apply Forall_app. }
  assert (Hu2 : untouched s0 tmp (fs w2)) by by eapply hd_Forall.
  destruct Hc as (f & Hf & Hdata).
  exec_step. eapply exec_mono; [by apply (chown_exec E s0 tmp)|].
  intros tr3 r3 w3 _ Hf3 (-> & H3 & Hc3).
  assert (Hu3 : untouched s0 tmp (fs w3)) by by eapply hd_Forall.
  destruct (Hc3 f Hf) as (f' & Hf' & Hdata').
  eapply exec_mono; [by apply (publish_exec E s0 tmp final res w3 f')|].
  intros tr4 r4 w4 _ _ H4.
  assert (Hpre : hd (fs w) (tr3 ++ tr2 ++ tr1) = fs w3).
  { by rewrite !hd_app, <- Hf1, <- Hf2, <- Hf3. }
  assert (Hcontent : f_data f' = content) by congruence.
  destruct r4 as [x|e].
  - destruct H4 as (post' & -> & HF4). rewrite Hcontent in HF4.
    exists (post' ++ [put (SPOOL_DIR, final) (Reg f') (del (SPOOL_DIR, tmp) (fs w3))]),
           (tr3 ++ tr2 ++ tr1).
    repeat split.
    + by rewrite <- !app_assoc.
    + by repeat (apply Forall_app; split).
    + done.
    + exists post', f'. by rewrite Hpre.
  - subst tr4. exists [], (tr3 ++ tr2 ++ tr1).
    repeat split; [by rewrite <- !app_assoc| |constructor].
    by repeat (apply Forall_app; split).
Qed.

Lemma originate_call_exec cfg E to message w :
  exec (originate_call cfg E to message) w (fun tr r _ =>
    match int_of_float (clock E (tick w) * 1000)%float with
    | None => tr = [] /\ exists e, r = Raise e
    | Some ms => atomic_run cfg to (str_int ms) (fs w) tr r
    end).
Proof.
  unfold originate_call. do 3 exec_step. unfold int_.
  destruct (int_of_float (clock E (tick w) * 1000)%float) as [ms|] eqn:Hms;
    [|exec_step; split; [done|by eexists]].
  do 2 exec_step.
  set (w0 := {| fs := fs w; tick := S (tick w); seen := seen w |}).
  eapply exec_mono;
    [apply (generate_tts_keeps E message (str_int ms) (spool (fs w)) w0); reflexivity|].
  intros tr1 r1 w1 Hrun Hf1 H1. destruct r1 as [sound|e].
  2:{ exists [], tr1. split; [by rewrite !app_nil_r|].
      split; [|split; [constructor|done]].
      eapply Forall_impl; [exact H1|]. intros d Hd n _. by rewrite Hd. }
  apply generate_tts_ok in Hrun as ->.
  assert (Hu1 : untouched (spool (fs w)) (tmp_name (str_int ms)) (fs w1)).
  { assert (Hs : spool_is (spool (fs w)) (fs w1)) by (eapply hd_Forall; eauto; done).
    intros n _. by rewrite Hs. }
  eapply exec_mono;
    [apply (stage_exec E (spool (fs w)) (tmp_name (str_int ms)) (call_name (str_int ms)));
     [apply tmp_name_neq|exact Hu1]|].
  intros tr2 r2 w2 _ _ (post & pre & -> & Hpre & Hpost & Hr).
  exists post, (pre ++ tr1). repeat split.
  - by rewrite !app_nil_r, <- app_assoc.
  - apply Forall_app. split; [done|].
    eapply Forall_impl; [exact H1|]. intros d Hd n _. by rewrite Hd.
  - done.
  - destruct r2 as [x|e]; [|done].
    destruct Hr as (post' & f & Hf & Hdata & ->).
    exists post', f. rewrite hd_app. change (fs w) with (fs w0). by rewrite <- Hf1.
Qed.

(** C1. Publication of the call file is atomic. Let [uid] be the identifier
    of the run (when the clock reading has none, the run raises before any
    file operation), [final] the name akira-<uid>.call and [tmp] that name
    followed by .tmp. The disk states the run goes through, partial writes
    included, split into [pre] and then [post]:
    - in every state of [pre] the pickup directory is as at the start at
      every name other than [tmp], [final] included: what is written before
      the rename goes to the .tmp file only;
    - in every state of [post] the name [final] holds a regular file whose
      content is the whole rendered text, and [tmp] is gone;
    - a run that raises (synthesis failure included) has no [post] state: the
      final name never changes;
    - a run that returns has as oldest [post] state the newest [pre] state
      with [tmp], then holding the whole text, renamed to [final]: the one
      rename is what publishes. *)
Theorem call_file_published_atomically (cfg : config) (E : env) (to message : pystr)
        (w : world) :
  let out := originate_call cfg E to message w in
  match int_of_float (clock E (tick w) * 1000)%float with
  | None => (exists e, out.1 = Raise e) /\ seen out.2 = seen w /\ fs out.2 = fs w
  | Some ms =>
      let uid := str_int ms in
      let final := lit "akira-" ++ uid ++ lit ".call" in
      let tmp := final ++ lit ".tmp" in
      let content := call_file_content cfg to (lit "akira-alert-" ++ uid) in
      exists post pre,
        seen out.2 = post ++ pre ++ seen w /\
        fs out.2 = hd (fs w) (post ++ pre) /\
        Forall (fun d => spool d !! final = spool (fs w) !! final /\
                         forall n, n <> tmp -> spool d !! n = spool (fs w) !! n) pre /\
        Forall (fun d => (exists f, spool d !! final = Some (Reg f) /\ f_data f = content) /\
                         spool d !! tmp = None /\
                         forall n, n <> tmp -> n <> final ->
                                   spool d !! n = spool (fs w) !! n) post /\
        match out.1 with
        | Raise _ => post = []
        | Ok _ =>
            exists post' f,
              let d0 := hd (fs w) pre in
              spool d0 !! tmp = Some (Reg f) /\ f_data f = content /\
              post = post' ++ [{| sounds := sounds d0;
                                  spool := <[final := Reg f]> (delete tmp (spool d0)) |}]
        end
  end.
Proof.
  intros out. destruct (originate_call_exec cfg E to message w) as (tr & Hs & Hf & _ & H).
  fold out in Hs, Hf, H.
  destruct (int_of_float (clock E (tick w) * 1000)%float) as [ms|].
  - destruct H as (post & pre & -> & Hpre & Hpost & Hr).
    exists post, pre. split; [by rewrite Hs, app_assoc|]. split; [done|].
    split; [|split].
    + eapply Forall_impl; [exact Hpre|]. intros d Hd. split; [|exact Hd].
      apply Hd. intros Heq. by apply (tmp_name_neq (str_int ms)).
    + eapply Forall_impl; [exact Hpost|]. intros d (Hothers & Htmp & Hfinal).
      by repeat split.
    + destruct out.1 as [x|e]; [|done].
      destruct Hr as (post' & f & Hf0 & Hdata & ->). by exists post', f.
  - destruct H as (-> & e & He). split; [by exists e|]. by split.
Qed.

(** A run in which the write was observable after three characters: that
    state shows them under the temporary name and nothing under the final
    one. *)
Example partial_write_only_under_tmp :
  let out := originate_call Demo.cfg0 (Demo.calm 1700000000.0078125)
               (lit "+15551234567") (lit "Disk full on NAS")
               (Demo.start Demo.empty_disk) in
  exists d f,
    nth_error (seen out.2) 3 = Some d /\
    spool d !! lit "akira-1700000000007.call.tmp" = Some (Reg f) /\
    f_data f = lit "Cha" /\
    spool d !! lit "akira-1700000000007.call" = None.
Proof. eexists _, _. vm_compute. repeat split. Qed.

(** A run in which the rename fails: the request raises, the final name
    never appears and the temporary file is left behind with the whole text. *)
Example failed_rename_publishes_nothing :
  let E := Demo.failing_at 9 1700000000.0078125 in
  let out := originate_call Demo.cfg0 E (lit "+15551234567") (lit "Disk full on NAS")
               (Demo.start Demo.empty_disk) in
  out.1 = Raise (errtext E 9) /\
  forallb (fun d => bool_decide (spool d !! lit "akira-1700000000007.call" = None))
          (seen out.2) = true /\
  exists f,
    spool (fs out.2) !! lit "akira-1700000000007.call.tmp" = Some (Reg f) /\
    f_data f = call_file_content Demo.cfg0 (lit "+15551234567")
                 (lit "akira-alert-1700000000007").
Proof. vm_compute. repeat split. by eexists. Qed.

(* ===================================================================== *)
(** * The text of the call file *)

Lemma single_line_app a b :
  single_line (a ++ b) = single_line a && single_line b.
Proof. apply forallb_app. Qed.

Lemma lines_line l rest :
  single_line l = true -> lines (l ++ nl ++ rest) = l :: lines rest.
Proof.
  induction l as [|c l IH]; simpl; [done|].
  intros [Hc Hl]%andb_true_iff. apply negb_true_iff in Hc. rewrite Hc.
  specialize (IH Hl). simpl in IH. by rewrite IH.
Qed.

(** A successful origination ends with the call file published. *)
Lemma originate_call_publishes cfg E to message w res :
  (originate_call cfg E to message w).1 = Ok res ->
  exists ms,
    int_of_float (clock E (tick w) * 1000)%float = Some ms /\
    published (spool (fs w)) (tmp_name (str_int ms)) (call_name (str_int ms))
              (call_file_content cfg to (lit "akira-alert-" ++ str_int ms))
              (fs (originate_call cfg E to message w).2).
Proof.
  intros Hres.
  destruct (originate_call_exec cfg E to message w) as (tr & _ & Hf & _ & H).
  rewrite Hres in H.
  destruct (int_of_float (clock E (tick w) * 1000)%float) as [ms|];
    [|by destruct H as (_ & e & [=])].
  exists ms. split; [done|].
  destruct H as (post & pre & -> & _ & Hpost & post' & f & _ & _ & ->).
  rewrite Hf. destruct post' as [|d post']; simpl in *; by inversion Hpost.
Qed.

(** C7, as the code has it. The destination, the trunk and the caller
    identity are written into the text as they are. When none of them holds
    a line feed, the call file a successful origination has published
    consists of exactly these seven lines, in this order. *)
Theorem call_file_has_seven_lines (cfg : config) (E : env) (to message : pystr)
        (w : world) (res : json) :
  single_line to = true ->
  single_line (TRUNK cfg) = true ->
  single_line (CALLER_ID cfg) = true ->
  (originate_call cfg E to message w).1 = Ok res ->
  exists ms f,
    int_of_float (clock E (tick w) * 1000)%float = Some ms /\
    let uid := str_int ms in
    spool (fs (originate_call cfg E to message w).2) !! (lit "akira-" ++ uid ++ lit ".call")
    = Some (Reg f) /\
    f_data f = call_file_content cfg to (lit "akira-alert-" ++ uid) /\
    lines (f_data f) =
      [lit "Channel: PJSIP/" ++ to ++ lit "@" ++ TRUNK cfg;
       lit "Application: Playback";
       lit "Data: custom/akira-alert-" ++ uid;
       lit "MaxRetries: 2";
       lit "RetryTime: 30";
       lit "WaitTime: 45";
       lit "CallerID: " ++ CALLER_ID cfg].
Proof.
  intros Hto Htrunk Hcid Hres.
  destruct (originate_call_publishes cfg E to message w res Hres)
    as (ms & Hms & _ & _ & f & Hf & Hdata).
  exists ms, f. repeat split; [done..|].
  rewrite Hdata.
  assert (H1 : single_line (lit "Channel: PJSIP/" ++ to ++ lit "@" ++ TRUNK cfg) = true).
  { by rewrite !single_line_app, Hto, Htrunk. }
  assert (H3 : single_line (lit "Data: custom/akira-alert-" ++ str_int ms) = true).
  { by rewrite single_line_app, str_int_single_line. }
  assert (H7 : single_line (lit "CallerID: " ++ CALLER_ID cfg) = true).
  { by rewrite single_line_app, Hcid. }
  assert (Hc : call_file_content cfg to (lit "akira-alert-" ++ str_int ms) =
               (lit "Channel: PJSIP/" ++ to ++ lit "@" ++ TRUNK cfg) ++ nl ++
               lit "Application: Playback" ++ nl ++
               (lit "Data: custom/akira-alert-" ++ str_int ms) ++ nl ++
               lit "MaxRetries: 2" ++ nl ++
               lit "RetryTime: 30" ++ nl ++
               lit "WaitTime: 45" ++ nl ++
               (lit "CallerID: " ++ CALLER_ID cfg) ++ nl ++ []).
  { unfold call_file_content. rewrite <- !app_assoc. reflexivity. }
  rewrite Hc.
  rewrite (lines_line _ _ H1), (lines_line (lit "Application: Playback") _ eq_refl),
    (lines_line _ _ H3), (lines_line (lit "MaxRetries: 2") _ eq_refl),
    (lines_line (lit "RetryTime: 30") _ eq_refl),
    (lines_line (lit "WaitTime: 45") _ eq_refl), (lines_line _ _ H7).
  reflexivity.
Qed.

Lemma call_file_has_seven_lines_witness :
  exists ms f,
    int_of_float (clock (Demo.calm 1700000000.0078125)
                        (tick (Demo.start Demo.empty_disk)) * 1000)%float = Some ms /\
    let uid := str_int ms in
    spool (fs (originate_call Demo.cfg0 (Demo.calm 1700000000.0078125)
                              (lit "+15551234567") (lit "Disk full on NAS")
                              (Demo.start Demo.empty_disk)).2)
      !! (lit "akira-" ++ uid ++ lit ".call")
    = Some (Reg f) /\
    f_data f = call_file_content Demo.cfg0 (lit "+15551234567") (lit "akira-alert-" ++ uid) /\
    lines (f_data f) =
      [lit "Channel: PJSIP/" ++ lit "+15551234567" ++ lit "@" ++ TRUNK Demo.cfg0;
       lit "Application: Playback";
       lit "Data: custom/akira-alert-" ++ uid;
       lit "MaxRetries: 2";
       lit "RetryTime: 30";
       lit "WaitTime: 45";
       lit "CallerID: " ++ CALLER_ID Demo.cfg0].
Proof.
  apply (call_file_has_seven_lines Demo.cfg0 (Demo.calm 1700000000.0078125)
           (lit "+15551234567") (lit "Disk full on NAS") (Demo.start Demo.empty_disk)
           (ok_body (lit "+15551234567") (lit "1700000000007")));
    vm_compute; reflexivity.
Defined.

(** C7 as the spec words it fails: a destination with a line feed inside
    (the JSON string "100\nApplication: System") passes the handler and is
    published as a call file of eight lines, the second of which is not
    Application: Playback. *)
Lemma line_feed_in_destination_adds_a_line :
  let to := lit "100" ++ nl ++ lit "Application: System" in
  let rq := Demo.request0 (Some (lit "s3cret"))
              (JDict [(lit "to", JStr to); (lit "message", JStr (lit "hello"))]) in
  let out := do_POST Demo.cfg0 (Demo.calm 1700000000.0078125) rq
                     (Demo.start Demo.empty_disk) in
  exists f,
    out.1 = Ok (Sent (json_response 200 (ok_body to (lit "1700000000007")))) /\
    spool (fs out.2) !! lit "akira-1700000000007.call" = Some (Reg f) /\
    lines (f_data f) =
      [lit "Channel: PJSIP/100";
       lit "Application: System@Twilio";
       lit "Application: Playback";
       lit "Data: custom/akira-alert-1700000000007";
       lit "MaxRetries: 2";
       lit "RetryTime: 30";
       lit "WaitTime: 45";
       lit "CallerID: Akira <+15550000000>"] /\
    length (lines (f_data f)) <> 7.
Proof.
  eexists. vm_compute. repeat split. discriminate.
Qed.

(* ===================================================================== *)
(** * The handler: reading the body *)

Lemma dict_get_lookup items key d :
  dict_get items key d = default d (dict_lookup items key).
Proof.
  induction items as [|[k v] items IH]; simpl; [done|]. by destruct (pystr_eqb k key).
Qed.

Lemma lstrip_blank s : forallb isspace s = true -> lstrip s = [].
Proof.
  induction s as [|c s IH]; simpl; [done|].
  intros [Hc Hs]%andb_true_iff. rewrite Hc. by apply IH.
Qed.

Lemma lstrip_nil s : lstrip s = [] -> forallb isspace s = true.
Proof.
  induction s as [|c s IH]; simpl; [done|].
  destruct (isspace c); [exact IH|discriminate].
Qed.

Lemma lstrip_stable s : lstrip (lstrip s) = lstrip s.
Proof.
  induction s as [|c s IH]; simpl; [done|].
  destruct (isspace c) eqn:Hc; [exact IH|]. simpl. by rewrite Hc.
Qed.

Lemma forallb_rev {A} (p : A -> bool) (l : list A) :
  forallb p (rev l) = forallb p l.
Proof.
  induction l as [|x l IH]; simpl; [done|].
  rewrite forallb_app, IH. simpl. rewrite andb_true_r. apply andb_comm.
Qed.

(** [strip] leaves nothing exactly of the strings made of white space. *)
Lemma strip_nil_iff s : strip s = [] <-> forallb isspace s = true.
Proof.
  unfold strip, rstrip. split.
  - intros H. apply (f_equal (@rev N)) in H. rewrite rev_involutive in H. simpl in H.
    apply lstrip_nil in H. rewrite forallb_rev in H.
    apply lstrip_blank in H. rewrite lstrip_stable in H. by apply lstrip_nil.
  - intros H. by rewrite (lstrip_blank s H).
Qed.

Lemma strip_visible c s : isspace c = false -> strip (c :: s) <> [].
Proof. intros Hc H%strip_nil_iff. simpl in H. by rewrite Hc in H. Qed.

Lemma str_int_visible z : strip (str_int z) <> [].
Proof.
  pose proof (str_int_decimal z) as HF.
  destruct (str_int z) as [|c s] eqn:Hz.
  - exfalso. unfold str_int, lit in Hz. apply map_eq_nil in Hz.
    destruct z as [|p|p]; simpl in Hz; try discriminate.
    pose proof (DecimalPos.Unsigned.to_uint_nonnil p) as Hp.
    destruct (Pos.to_uint p); simpl in Hz; try discriminate. by apply Hp.
  - apply strip_visible. inversion HF as [|? ? Hc _]; subst.
    destruct Hc as [->|Hc]; [reflexivity|].
    unfold isspace.
    repeat match goal with
           | |- context [(?a <=? ?b)%N] =>
               destruct (N.leb_spec a b); try lia
           | |- context [(?a =? ?b)%N] =>
               destruct (N.eqb_spec a b); try lia
           end; reflexivity.
Qed.

(** The request passes the checks on path, token and body. *)
Lemma do_POST_accepted cfg E rq w len items :
  rq_path rq = lit "/call" ->
  RELAY_TOKEN cfg <> [] ->
  rq_token rq = Some (RELAY_TOKEN cfg) ->
  rq_length rq = Some len ->
  rq_body rq = Some (JDict items) ->
  let to := strip (str (repr_str E) (repr_float E)
                       (default (JStr []) (dict_lookup items (lit "to")))) in
  let message := strip (str (repr_str E) (repr_float E)
                            (default (JStr (lit "Alert from Akira"))
                                     (dict_lookup items (lit "message")))) in
  do_POST cfg E rq w =
  if is_empty to then (Ok (Sent (error_page 400 (lit "Missing 'to'"))), w)
  else answer cfg E to message w.
Proof.
  intros Hp Ht Hh Hl Hb to message. unfold do_POST.
  rewrite Hp, pystr_eqb_refl, (is_empty_false _ Ht), Hh, Hl, Hb. simpl.
  rewrite bool_decide_eq_true_2 by done. simpl.
  rewrite !dict_get_lookup. fold to message. by destruct (is_empty to).
Qed.

(* ===================================================================== *)
(** * A failing removal of the raw file *)

Lemma emit_ok E p data n d :
  fails E n = false ->
  exists ds x,
    emit E p data n d = (ds ++ [put p (Reg x) d], Ok tt) /\ f_data x = data.
Proof. intros Hn. unfold emit. rewrite Hn. by eexists _, _. Qed.

Lemma pipeline_remove_fails {A} E message (raw final : pystr) (k : M A) w :
  fails E (tick w) = false ->
  fails E (S (tick w)) = false ->
  fails E (S (S (tick w))) = false ->
  fails E (S (S (S (tick w)))) = true ->
  exists w',
    (os_makedirs E SOUNDS_DIR;;
     run_flite E message (SOUNDS_DIR, raw);;
     run_sox E (SOUNDS_DIR, raw) (SOUNDS_DIR, final);;
     os_remove E (SOUNDS_DIR, raw);;
     k) w = (Raise (errtext E (S (S (S (tick w))))), w') /\
    spool (fs w') = spool (fs w) /\
    exists f, sounds (fs w') !! final = Some (Reg f) /\
              f_data f = sox E (flite E message).
Proof.
  intros H0 H1 H2 H3.
  unfold mbind, M_bind, os_makedirs, run_flite, run_sox, os_remove, prim.
  simpl. rewrite H0. simpl.
  destruct (emit_ok E (SOUNDS_DIR, raw) (flite E message) (S (tick w)) (fs w) H1)
    as (ds1 & x1 & -> & Hx1).
  simpl. rewrite last_last. unfold entry at 1. simpl. rewrite lookup_insert_eq.
  match goal with
  | |- context [emit E ?p ?data ?n ?d] =>
      destruct (emit_ok E p data n d H2) as (ds2 & x2 & -> & Hx2)
  end.
  simpl. rewrite last_last, H3. simpl.
  eexists. split; [reflexivity|]. simpl. split; [done|].
  exists x2. rewrite lookup_insert_eq. split; [done|].
  by rewrite Hx2, Hx1.
Qed.

Lemma generate_tts_remove_fails E message uid w :
  fails E (tick w) = false ->
  fails E (S (tick w)) = false ->
  fails E (S (S (tick w))) = false ->
  fails E (S (S (S (tick w)))) = true ->
  exists w',
    generate_tts E message uid w = (Raise (errtext E (S (S (S (tick w))))), w') /\
    spool (fs w') = spool (fs w) /\
    exists f, sounds (fs w') !! (lit "akira-alert-" ++ uid ++ lit ".wav") = Some (Reg f) /\
              f_data f = sox E (flite E message).
Proof.
  intros H0 H1 H2 H3. rewrite app_assoc.
  exact (pipeline_remove_fails E message _ _ _ w H0 H1 H2 H3).
Qed.

Lemma originate_call_remove_fails cfg E to message w ms :
  int_of_float (clock E (tick w) * 1000)%float = Some ms ->
  fails E (1 + tick w) = false ->
  fails E (2 + tick w) = false ->
  fails E (3 + tick w) = false ->
  fails E (4 + tick w) = true ->
  exists w',
    originate_call cfg E to message w = (Raise (errtext E (4 + tick w)), w') /\
    spool (fs w') = spool (fs w) /\
    exists f,
      sounds (fs w') !! (lit "akira-alert-" ++ str_int ms ++ lit ".wav") = Some (Reg f) /\
      f_data f = sox E (flite E message).
Proof.
  intros Hms H1 H2 H3 H4.
  set (w1 := {| fs := fs w; tick := S (tick w); seen := seen w |}).
  destruct (generate_tts_remove_fails E message (str_int ms) w1 H1 H2 H3 H4)
    as (w' & Hrun & Hsp & f & Hf & Hdata).
  exists w'. split; [|split; [done|by exists f]].
  unfold originate_call. unfold mbind at 1, M_bind at 1. rewrite time_time_run.
  unfold mbind at 1, M_bind at 1. unfold int_. rewrite Hms.
  unfold mret at 1, M_ret at 1. unfold mbind at 1, M_bind at 1.
  fold w1. by rewrite Hrun.
Qed.

(** C4, as the code has it. The removal of the raw file is not wrapped in a
    [try]: when the directory check, flite and sox succeed and [os.remove] of
    the raw file then raises, the exception leaves [generate_tts] and
    [originate_call], and the request is answered 500 with the JSON error
    body carrying the text of that exception. Nothing is written to the
    pickup directory; the resampled asset stays in the audio directory. *)
Theorem raw_removal_failure_is_500 (cfg : config) (E : env) (rq : request) (w : world)
        (len ms : Z) (items : list (pystr * json)) :
  rq_path rq = lit "/call" ->
  RELAY_TOKEN cfg <> [] ->
  rq_token rq = Some (RELAY_TOKEN cfg) ->
  rq_length rq = Some len ->
  rq_body rq = Some (JDict items) ->
  let to := strip (str (repr_str E) (repr_float E)
                       (default (JStr []) (dict_lookup items (lit "to")))) in
  let message := strip (str (repr_str E) (repr_float E)
                            (default (JStr (lit "Alert from Akira"))
                                     (dict_lookup items (lit "message")))) in
  to <> [] ->
  int_of_float (clock E (tick w) * 1000)%float = Some ms ->
  fails E (1 + tick w) = false ->       (* os.makedirs *)
  fails E (2 + tick w) = false ->       (* flite *)
  fails E (3 + tick w) = false ->       (* sox *)
  fails E (4 + tick w) = true ->        (* os.remove(raw_path) *)
  let out := do_POST cfg E rq w in
  out.1 = Ok (Sent (json_response 500 (error_body (errtext E (4 + tick w))))) /\
  spool (fs out.2) = spool (fs w) /\
  exists f,
    sounds (fs out.2) !! (lit "akira-alert-" ++ str_int ms ++ lit ".wav") = Some (Reg f) /\
    f_data f = sox E (flite E message).
Proof.
  intros Hp Ht Hh Hl Hb to message Hto Hms H1 H2 H3 H4 out.
  destruct (originate_call_remove_fails cfg E to message w ms Hms H1 H2 H3 H4)
    as (w' & Hrun & Hsp & f & Hf & Hdata).
  assert (Hout : out = (Ok (Sent (json_response 500 (error_body (errtext E (4 + tick w))))),
                        w')).
  { unfold out. rewrite (do_POST_accepted cfg E rq w len items Hp Ht Hh Hl Hb).
    fold to message. rewrite (is_empty_false _ Hto).
    unfold answer, try_except, mbind, M_bind. by rewrite Hrun. }
  rewrite Hout. simpl. split; [done|]. split; [done|]. by exists f.
Qed.

Lemma raw_removal_failure_is_500_witness :
  let E := Demo.failing_at 4 1700000000.0078125 in
  let out := do_POST Demo.cfg0 E (Demo.request0 (Some (lit "s3cret")) Demo.body0)
                     (Demo.start Demo.empty_disk) in
  out.1 = Ok (Sent (json_response 500 (error_body (errtext E 4)))) /\
  spool (fs out.2) = spool (fs (Demo.start Demo.empty_disk)) /\
  exists f,
    sounds (fs out.2) !! (lit "akira-alert-" ++ str_int 1700000000007 ++ lit ".wav")
    = Some (Reg f) /\
    f_data f = sox E (flite E (lit "Disk full on NAS")).
Proof.
  apply (raw_removal_failure_is_500 Demo.cfg0 (Demo.failing_at 4 1700000000.0078125)
           (Demo.request0 (Some (lit "s3cret")) Demo.body0)
           (Demo.start Demo.empty_disk) 64%Z 1700000000007%Z
           [(lit "to", JStr (lit "+15551234567"));
            (lit "message", JStr (lit "Disk full on NAS"))]);
    try reflexivity; try discriminate; vm_compute; reflexivity.
Defined.

(** C4 as the spec words it fails: flite and sox succeed, the removal of the
    raw file fails, and the answer is 500, not 200. *)
Lemma raw_removal_failure_is_not_200 :
  let E := Demo.failing_at 4 1700000000.0078125 in
  let out := do_POST Demo.cfg0 E (Demo.request0 (Some (lit "s3cret")) Demo.body0)
                     (Demo.start Demo.empty_disk) in
  fails E 2 = false /\ fails E 3 = false /\ fails E 4 = true /\
  (exists raw wav,
     sounds (fs out.2) !! lit "akira-alert-1700000000007-raw.wav" = Some (Reg raw) /\
     f_data raw = flite E (lit "Disk full on NAS") /\
     sounds (fs out.2) !! lit "akira-alert-1700000000007.wav" = Some (Reg wav) /\
     f_data wav = sox E (flite E (lit "Disk full on NAS"))) /\
  exists r, out.1 = Ok (Sent r) /\ status r = 500%Z /\ status r <> 200%Z /\
            payload r = JsonText (error_body (lit "[Errno 13] Permission denied")).
Proof.
  vm_compute. repeat split. - by eexists _, _. - eexists. repeat split. discriminate.
Qed.

(* ===================================================================== *)
(** * Single operations, read backwards *)

Lemma prim_run {A} (act : nat -> disk -> list disk * result A) w r w' :
  prim act w = (r, w') ->
  exists ds, act (tick w) (fs w) = (ds, r) /\
             w' = {| fs := List.last ds (fs w); tick := S (tick w);
                     seen := rev ds ++ seen w |}.
Proof.
  unfold prim. destruct (act (tick w) (fs w)) as [ds r0]. intros [= <- <-]. by exists ds.
Qed.

Lemma emit_run_ok E p data n d ds :
  emit E p data n d = (ds, Ok tt) ->
  exists x, List.last ds d = put p (Reg x) d /\ f_data x = data /\ f_mtime x = clock E n.
Proof.
  unfold emit. destruct (fails E n); [discriminate|]. intros [= <-].
  rewrite last_last. by eexists.
Qed.

Lemma os_makedirs_ok E D w w' :
  os_makedirs E D w = (Ok tt, w') -> fs w' = fs w /\ tick w' = S (tick w).
Proof.
  unfold os_makedirs. intros (ds & Hact & ->)%prim_run. simpl in Hact. destruct (fails E (tick w)); [discriminate|].
  by injection Hact as <-.
Qed.

Lemma run_flite_ok E message p w w' :
  run_flite E message p w = (Ok tt, w') ->
  tick w' = S (tick w) /\
  exists x, fs w' = put p (Reg x) (fs w) /\ f_data x = flite E message.
Proof.
  unfold run_flite. intros (ds & Hact & ->)%prim_run. simpl in Hact. split; [done|].
  apply emit_run_ok in Hact as (x & Hx & Hd & _). by exists x.
Qed.

Lemma run_sox_ok E raw final w w' :
  run_sox E raw final w = (Ok tt, w') ->
  tick w' = S (tick w) /\
  exists f0 x, entry (fs w) raw = Some (Reg f0) /\
               fs w' = put final (Reg x) (fs w) /\
               f_data x = sox E (f_data f0) /\ f_mtime x = clock E (tick w).
Proof.
  unfold run_sox. intros (ds & Hact & ->)%prim_run. simpl in Hact. split; [done|].
  destruct (entry (fs w) raw) as [[f0|t]|]; try discriminate.
  apply emit_run_ok in Hact as (x & Hx & Hd & Hm). by exists f0, x.
Qed.

Lemma os_remove_ok E p w w' :
  os_remove E p w = (Ok tt, w') ->
  tick w' = S (tick w) /\ fs w' = del p (fs w) /\ is_Some (entry (fs w) p).
Proof.
  unfold os_remove. intros (ds & Hact & ->)%prim_run. simpl in Hact. destruct (fails E (tick w)); [discriminate|].
  destruct (entry (fs w) p) as [x|] eqn:He; [|discriminate].
  injection Hact as <-. by repeat split.
Qed.

(** The ownership change inside its [try]: it never raises, and it leaves
    the disk as it was or with the owner of the file changed. *)
Lemma try_chown_run E p user group w r w' :
  try_except (shutil_chown E p user group) (fun _ => mret tt) w = (r, w') ->
  r = Ok tt /\ tick w' = S (tick w) /\
  (fs w' = fs w \/
   exists f, entry (fs w) p = Some (Reg f) /\
             fs w' = put p (Reg {| f_data := f_data f; f_mtime := f_mtime f;
                                   f_owner := (user, group) |}) (fs w)).
Proof.
  unfold try_except.
  destruct (shutil_chown E p user group w) as [[[]|e] w1] eqn:Hc;
    unfold shutil_chown in Hc; apply prim_run in Hc as (ds & Hact & ->);
    simpl in Hact.
  - intros [= <- <-]. split; [done|]. split; [done|].
    destruct (fails E (tick w)); [discriminate|].
    destruct (entry (fs w) p) as [[f|t]|]; try discriminate; injection Hact as <-.
    + right. by exists f.
    + by left.
  - intros [= <- <-]. split; [done|]. split; [done|]. left.
    destruct (fails E (tick w)); [by injection Hact as <-|].
    destruct (entry (fs w) p) as [[f|t]|]; try discriminate. by injection Hact as <-.
Qed.

Lemma open_w_ok E p w w' :
  open_w E p w = (Ok tt, w') ->
  tick w' = S (tick w) /\ exists x, fs w' = put p (Reg x) (fs w) /\ f_data x = [].
Proof.
  unfold open_w. intros (ds & Hact & ->)%prim_run. simpl in Hact. destruct (fails E (tick w)); [discriminate|].
  injection Hact as <-. split; [done|]. by eexists.
Qed.

Lemma file_write_ok E p content w w' :
  file_write E p content w = (Ok tt, w') ->
  tick w' = S (tick w) /\ exists x, fs w' = put p (Reg x) (fs w) /\ f_data x = content.
Proof.
  unfold file_write. intros (ds & Hact & ->)%prim_run. simpl in Hact. split; [done|].
  apply emit_run_ok in Hact as (x & Hx & Hd & _). by exists x.
Qed.

Lemma os_rename_ok E src dst w w' :
  os_rename E src dst w = (Ok tt, w') ->
  tick w' = S (tick w) /\
  exists x, entry (fs w) src = Some x /\ fs w' = put dst x (del src (fs w)).
Proof.
  unfold os_rename. intros (ds & Hact & ->)%prim_run. simpl in Hact. destruct (fails E (tick w)); [discriminate|].
  destruct (entry (fs w) src) as [x|] eqn:He; [|discriminate].
  injection Hact as <-. split; [done|]. by exists x.
Qed.

(* ===================================================================== *)
(** * The speech pipeline *)

Lemma pipeline_success E message (raw final s : pystr) (user group : pystr) w r w' :
  raw <> final ->
  (os_makedirs E SOUNDS_DIR;;
   run_flite E message (SOUNDS_DIR, raw);;
   run_sox E (SOUNDS_DIR, raw) (SOUNDS_DIR, final);;
   os_remove E (SOUNDS_DIR, raw);;
   try_except (shutil_chown E (SOUNDS_DIR, final) user group) (fun _ => mret tt);;
   mret s) w = (Ok r, w') ->
  r = s /\ tick w' = 5 + tick w /\ spool (fs w') = spool (fs w) /\
  (exists f, sounds (fs w') !! final = Some (Reg f) /\
             f_data f = sox E (flite E message) /\
             f_mtime f = clock E (2 + tick w)) /\
  sounds (fs w') !! raw = None /\
  (forall n, n <> final -> n <> raw -> sounds (fs w') !! n = sounds (fs w) !! n).
Proof.
  intros Hne H.
  apply bind_ok in H as ([] & w1 & H1 & H). apply os_makedirs_ok in H1 as [Hf1 Ht1].
  apply bind_ok in H as ([] & w2 & H2 & H).
  apply run_flite_ok in H2 as (Ht2 & x1 & Hf2 & Hx1).
  apply bind_ok in H as ([] & w3 & H3 & H).
  apply run_sox_ok in H3 as (Ht3 & f0 & x2 & He & Hf3 & Hx2 & Hm2).
  apply bind_ok in H as ([] & w4 & H4 & H).
  apply os_remove_ok in H4 as (Ht4 & Hf4 & _).
  apply bind_ok in H as ([] & w5 & H5 & H).
  apply try_chown_run in H5 as (_ & Ht5 & Hf5).
  apply ret_ok in H as [<- <-].
  rewrite Hf2, Hf1 in He. unfold entry in He. simpl in He.
  rewrite lookup_insert_eq in He. injection He as <-.
  assert (Hd4 : fs w4 = del (SOUNDS_DIR, raw)
                          (put (SOUNDS_DIR, final) (Reg x2)
                               (put (SOUNDS_DIR, raw) (Reg x1) (fs w)))).
  { by rewrite Hf4, Hf3, Hf2, Hf1. }
  assert (Hfinal4 : sounds (fs w4) !! final = Some (Reg x2)).
  { rewrite Hd4. simpl. rewrite lookup_delete_ne by done. by rewrite lookup_insert_eq. }
  split; [done|]. split; [lia|].
  assert (Hclock : f_mtime x2 = clock E (2 + tick w)).
  { rewrite Hm2. f_equal. lia. }
  destruct Hf5 as [Hf5|(f & Hef & Hf5)]; rewrite Hf5.
  - rewrite Hd4. simpl. split; [done|]. split.
    + exists x2. rewrite lookup_delete_ne by done. rewrite lookup_insert_eq.
      repeat split; [|done]. by rewrite Hx2, Hx1.
    + split; [by rewrite lookup_delete_eq|].
      intros n Hn1 Hn2. by rewrite lookup_delete_ne, !lookup_insert_ne.
  - unfold entry in Hef. simpl in Hef. rewrite Hfinal4 in Hef. injection Hef as <-.
    rewrite Hd4. simpl. split; [done|]. split.
    + eexists. rewrite lookup_insert_eq. split; [done|]. simpl.
      split; [|done]. by rewrite Hx2, Hx1.
    + split.
      * rewrite lookup_insert_ne by done. by rewrite lookup_delete_eq.
      * intros n Hn1 Hn2.
        by rewrite lookup_insert_ne, lookup_delete_ne, !lookup_insert_ne.
Qed.

Lemma raw_name_neq (sound : pystr) : sound ++ lit "-raw.wav" <> sound ++ lit ".wav".
Proof. intros H%app_inv_head. discriminate. Qed.

Lemma generate_tts_success E message uid w w' s :
  generate_tts E message uid w = (Ok s, w') ->
  s = lit "akira-alert-" ++ uid /\
  tick w' = 5 + tick w /\
  spool (fs w') = spool (fs w) /\
  (exists f, sounds (fs w') !! (lit "akira-alert-" ++ uid ++ lit ".wav") = Some (Reg f) /\
             f_data f = sox E (flite E message) /\
             f_mtime f = clock E (2 + tick w)) /\
  sounds (fs w') !! (lit "akira-alert-" ++ uid ++ lit "-raw.wav") = None /\
  (forall n, n <> lit "akira-alert-" ++ uid ++ lit ".wav" ->
             n <> lit "akira-alert-" ++ uid ++ lit "-raw.wav" ->
             sounds (fs w') !! n = sounds (fs w) !! n).
Proof.
  intros H. rewrite !app_assoc.
  exact (pipeline_success E message _ _ _ (lit "asterisk") (lit "asterisk") w s w'
           (raw_name_neq _) H).
Qed.

(** X1. When [generate_tts] returns, it returns the asset name; the asset
    file akira-alert-<uid>.wav is a regular file holding what sox made of
    what flite spoke for the message, written at the time of the sox step;
    the raw file is gone; no other entry of the audio directory and nothing
    of the pickup directory has changed; five operations were run. *)
Theorem generate_tts_leaves_the_asset (E : env) (message uid : pystr) (w w' : world)
        (s : pystr) :
  generate_tts E message uid w = (Ok s, w') ->
  let wav := lit "akira-alert-" ++ uid ++ lit ".wav" in
  let raw := lit "akira-alert-" ++ uid ++ lit "-raw.wav" in
  s = lit "akira-alert-" ++ uid /\
  tick w' = 5 + tick w /\
  spool (fs w') = spool (fs w) /\
  (exists f, sounds (fs w') !! wav = Some (Reg f) /\
             f_data f = sox E (flite E message) /\
             f_mtime f = clock E (2 + tick w)) /\
  sounds (fs w') !! raw = None /\
  (forall n, n <> wav -> n <> raw -> sounds (fs w') !! n = sounds (fs w) !! n).
Proof. intros H wav raw. by apply generate_tts_success. Qed.

Lemma generate_tts_leaves_the_asset_witness :
  let E := Demo.calm 1700000000.0078125 in
  let out := generate_tts E (lit "Disk full on NAS") (lit "7")
                          (Demo.start Demo.empty_disk) in
  let wav := lit "akira-alert-" ++ lit "7" ++ lit ".wav" in
  let raw := lit "akira-alert-" ++ lit "7" ++ lit "-raw.wav" in
  lit "akira-alert-7" = lit "akira-alert-" ++ lit "7" /\
  tick out.2 = 5 + tick (Demo.start Demo.empty_disk) /\
  spool (fs out.2) = spool (fs (Demo.start Demo.empty_disk)) /\
  (exists f, sounds (fs out.2) !! wav = Some (Reg f) /\
             f_data f = sox E (flite E (lit "Disk full on NAS")) /\
             f_mtime f = clock E (2 + tick (Demo.start Demo.empty_disk))) /\
  sounds (fs out.2) !! raw = None /\
  (forall n, n <> wav -> n <> raw ->
             sounds (fs out.2) !! n = sounds (fs (Demo.start Demo.empty_disk)) !! n).
Proof.
  intros E out.
  apply (generate_tts_leaves_the_asset E (lit "Disk full on NAS") (lit "7")
           (Demo.start Demo.empty_disk) out.2 (lit "akira-alert-7")).
  vm_compute. reflexivity.
Defined.

(* ===================================================================== *)
(** * A successful origination, step by step *)

Lemma stage_success E (tmp final : pystr) (content : pystr) (res : json) w r w' :
  tmp <> final ->
  (open_w E (SPOOL_DIR, tmp);;
   file_write E (SPOOL_DIR, tmp) content;;
   try_except (shutil_chown E (SPOOL_DIR, tmp) (lit "asterisk") (lit "asterisk"))
              (fun _ => mret tt);;
   os_rename E (SPOOL_DIR, tmp) (SPOOL_DIR, final);;
   _cleanup_old_sounds E;;
   mret res) w = (Ok r, w') ->
  exists w_pub f,
    r = res /\ tick w_pub = 4 + tick w /\
    sounds (fs w_pub) = sounds (fs w) /\
    spool (fs w_pub) !! final = Some (Reg f) /\ f_data f = content /\
    spool (fs w_pub) !! tmp = None /\
    (forall n, n <> tmp -> n <> final -> spool (fs w_pub) !! n = spool (fs w) !! n) /\
    _cleanup_old_sounds E w_pub = (Ok tt, w').
Proof.
  intros Hne H.
  apply bind_ok in H as ([] & w1 & H1 & H). apply open_w_ok in H1 as (Ht1 & x1 & Hf1 & _).
  apply bind_ok in H as ([] & w2 & H2 & H).
  apply file_write_ok in H2 as (Ht2 & x2 & Hf2 & Hx2).
  apply bind_ok in H as ([] & w3 & H3 & H).
  apply try_chown_run in H3 as (_ & Ht3 & Hf3).
  apply bind_ok in H as ([] & w4 & H4 & H).
  apply os_rename_ok in H4 as (Ht4 & x & Hx & Hf4).
  apply bind_ok in H as ([] & w5 & H5 & H).
  apply ret_ok in H as [<- <-].
  assert (H3' : exists x3, f_data x3 = content /\
                           fs w3 = put (SPOOL_DIR, tmp) (Reg x3)
                                       (put (SPOOL_DIR, tmp) (Reg x1) (fs w))).
  { destruct Hf3 as [Hf3|(f & Hef & Hf3)]; rewrite Hf3, Hf2, Hf1.
    - exists x2. split; [done|]. unfold put. simpl. by rewrite insert_insert_eq.
    - rewrite Hf2 in Hef. unfold entry in Hef. simpl in Hef.
      rewrite lookup_insert_eq in Hef. injection Hef as <-.
      eexists. split; [|unfold put; simpl; by rewrite !insert_insert_eq]. done. }
  destruct H3' as (x3 & Hx3 & Hd3).
  rewrite Hd3 in Hx. unfold entry in Hx. simpl in Hx.
  rewrite lookup_insert_eq in Hx. injection Hx as <-.
  exists w4, x3. rewrite Hf4, Hd3. simpl.
  split; [done|]. split; [lia|]. split; [done|].
  split; [by rewrite lookup_insert_eq|]. split; [done|].
  split; [by rewrite lookup_insert_ne, lookup_delete_eq|].
  split; [|by destruct w5; done].
  intros n Hn1 Hn2. by rewrite lookup_insert_ne, lookup_delete_ne, !lookup_insert_ne.
Qed.

Lemma originate_call_success cfg E to message w res w' :
  originate_call cfg E to message w = (Ok res, w') ->
  exists ms w_pub f a,
    int_of_float (clock E (tick w) * 1000)%float = Some ms /\
    res = ok_body to (str_int ms) /\
    tick w_pub = 10 + tick w /\
    spool (fs w_pub) !! call_name (str_int ms) = Some (Reg f) /\
    f_data f = call_file_content cfg to (lit "akira-alert-" ++ str_int ms) /\
    sounds (fs w_pub) !! (lit "akira-alert-" ++ str_int ms ++ lit ".wav") = Some (Reg a) /\
    f_data a = sox E (flite E message) /\
    f_mtime a = clock E (3 + tick w) /\
    _cleanup_old_sounds E w_pub = (Ok tt, w').
Proof.
  intros H. pose proof (originate_call_ok _ _ _ _ _ _ _ H) as (ms0 & Hms0 & Hres).
  unfold originate_call in H.
  apply bind_ok in H as (t & w1 & Ht & H). rewrite time_time_run in Ht.
  injection Ht as <- <-.
  apply bind_ok in H as (ms & w2 & Hms & H). apply int_ok in Hms as [Hms <-].
  apply bind_ok in H as (s & w3 & Hs & H).
  apply generate_tts_success in Hs as (-> & Ht3 & Hsp3 & (a & Ha & Hda & Hma) & _ & _).
  apply (stage_success E (tmp_name (str_int ms)) (call_name (str_int ms)))
    in H as (w_pub & f & _ & Htp & Hso & Hf & Hdf & _ & _ & Hsweep);
    [|apply tmp_name_neq].
  assert (ms0 = ms) by congruence. subst ms0.
  exists ms, w_pub, f, a. simpl in Ht3, Hma.
  split; [done|]. split; [done|]. split; [lia|]. split; [done|]. split; [done|].
  split; [by rewrite Hso|]. split; [done|]. split; [|done].
  by rewrite Hma.
Qed.

(* ===================================================================== *)
(** * The text that is spoken *)

(** C10. For an authenticated POST to /call whose body is a JSON object:
    - the value under "to", whatever its JSON type, is turned into a string
      by [str] and stripped, and the request is refused (400) only when the
      result is empty; null, a boolean, an integer, a list and an object
      never give an empty result, a float gives the stripped [repr] of the
      float, a string gives itself, stripped;
    - with "message" absent the text spoken is the default, Alert from Akira;
      with "message" present it is its [str], stripped, whatever its JSON
      type; an empty or white-space-only string gives the empty text;
    - that text is what is synthesised: when the request is answered 200,
      the asset of the request was, at the moment the call file appeared, a
      regular file holding what sox made of what flite spoke for that text
      (for a blank message: for the empty string, not for the default), and
      when the reply is sent the asset is still that file or has been swept
      away. *)
Theorem default_message_only_when_absent (cfg : config) (E : env) (rq : request)
        (w : world) (len : Z) (items : list (pystr * json)) :
  rq_path rq = lit "/call" ->
  RELAY_TOKEN cfg <> [] ->
  rq_token rq = Some (RELAY_TOKEN cfg) ->
  rq_length rq = Some len ->
  rq_body rq = Some (JDict items) ->
  let text v := strip (str (repr_str E) (repr_float E) v) in
  (forall v_to, dict_lookup items (lit "to") = Some v_to ->
     (text v_to = [] ->
      do_POST cfg E rq w = (Ok (Sent (error_page 400 (lit "Missing 'to'"))), w)) /\
     match v_to with
     | JStr s => text v_to = strip s
     | JFloat x => text v_to = strip (repr_float E x)
     | JNull | JBool _ | JInt _ | JList _ | JDict _ => text v_to <> []
     end) /\
  (forall v_to, dict_lookup items (lit "to") = Some v_to -> text v_to <> [] ->
     (dict_lookup items (lit "message") = None ->
      do_POST cfg E rq w = answer cfg E (text v_to) (lit "Alert from Akira") w) /\
     (forall v, dict_lookup items (lit "message") = Some v ->
      do_POST cfg E rq w = answer cfg E (text v_to) (text v) w) /\
     (forall s, dict_lookup items (lit "message") = Some (JStr s) ->
      forallb isspace s = true ->
      do_POST cfg E rq w = answer cfg E (text v_to) [] w) /\
     (forall r w',
        do_POST cfg E rq w = (Ok (Sent r), w') -> status r = 200%Z ->
        exists ms w_pub a,
          int_of_float (clock E (tick w) * 1000)%float = Some ms /\
          let wav := lit "akira-alert-" ++ str_int ms ++ lit ".wav" in
          payload r = JsonText (ok_body (text v_to) (str_int ms)) /\
          sounds (fs w_pub) !! wav = Some (Reg a) /\
          _cleanup_old_sounds E w_pub = (Ok tt, w') /\
          (sounds (fs w') !! wav = Some (Reg a) \/ sounds (fs w') !! wav = None) /\
          (dict_lookup items (lit "message") = None ->
           f_data a = sox E (flite E (lit "Alert from Akira"))) /\
          (forall v, dict_lookup items (lit "message") = Some v ->
           f_data a = sox E (flite E (text v))) /\
          (forall s, dict_lookup items (lit "message") = Some (JStr s) ->
           forallb isspace s = true ->
           f_data a = sox E (flite E [])))).
Proof.
  intros Hp Ht Hh Hl Hb text.
  pose proof (do_POST_accepted cfg E rq w len items Hp Ht Hh Hl Hb) as Hrun.
  simpl in Hrun. split.
  - intros v_to Hto. rewrite Hto in Hrun. simpl in Hrun. fold (text v_to) in Hrun. split.
    + intros Hempty. by rewrite Hrun, Hempty.
    + destruct v_to as [|[]|z| | | |]; try reflexivity; unfold text; simpl;
        try (by apply strip_visible). apply str_int_visible.
  - intros v_to Hto Hne.
    rewrite Hto in Hrun. simpl in Hrun. fold (text v_to) in Hrun.
    rewrite (is_empty_false _ Hne) in Hrun.
    split; [|split; [|split]].
    + intros Hm. by rewrite Hrun, Hm.
    + intros v Hm. by rewrite Hrun, Hm.
    + intros s Hm Hs. rewrite Hrun, Hm. simpl.
      by rewrite (proj2 (strip_nil_iff s) Hs).
    + intros r w' Hreply Hstatus. rewrite Hrun in Hreply.
      set (spoken := strip (str (repr_str E) (repr_float E)
                              (default (JStr (lit "Alert from Akira"))
                                       (dict_lookup items (lit "message"))))) in *.
      unfold answer, try_except, mbind, M_bind in Hreply.
      destruct (originate_call cfg E (text v_to) spoken w) as [[res|e] w1] eqn:Ho.
      2:{ injection Hreply as <- <-. discriminate. }
      injection Hreply as <- <-.
      destruct (originate_call_success cfg E (text v_to) spoken w res w1 Ho)
        as (ms & w_pub & f & a & Hms & -> & _ & _ & _ & Ha & Hda & _ & Hsw).
      exists ms, w_pub, a. split; [done|]. cbv zeta.
      split; [done|]. split; [done|]. split; [done|]. split.
      { destruct (cleanup_exec E w_pub) as (tr & _ & Hfs & _ & _ & HF).
        rewrite Hsw in Hfs. simpl in Hfs.
        assert (Hswept : swept (clock E (tick w_pub)) (fs w_pub) (fs w1)).
        { eapply hd_Forall; [exact Hfs|apply swept_refl|exact HF]. }
        destruct Hswept as [_ Hso]. unfold pystr in *.
        destruct (Hso (lit "akira-alert-" ++ str_int ms ++ lit ".wav"))
          as [Heq|[Hnone _]]; [left; congruence|by right]. }
      split; [|split].
      * intros Hm. unfold spoken in Hda. by rewrite Hm in Hda.
      * intros v Hm. unfold spoken in Hda. by rewrite Hm in Hda.
      * intros s Hm Hs. unfold spoken in Hda. rewrite Hm in Hda. simpl in Hda.
        by rewrite (proj2 (strip_nil_iff s) Hs) in Hda.
Qed.

Lemma default_message_only_when_absent_witness :
  let cfg := Demo.cfg0 in
  let E := Demo.calm 1700000000.0078125 in
  let items := [(lit "to", JInt 15551234567); (lit "message", JStr (lit "   "))] in
  let rq := Demo.request0 (Some (lit "s3cret")) (JDict items) in
  let w := Demo.start Demo.empty_disk in
  let out := do_POST cfg E rq w in
  out.1 = Ok (Sent (json_response 200 (ok_body (lit "15551234567") (lit "1700000000007")))) /\
  exists ms w_pub a,
    int_of_float (clock E (tick w) * 1000)%float = Some ms /\
    sounds (fs w_pub) !! (lit "akira-alert-" ++ str_int ms ++ lit ".wav") = Some (Reg a) /\
    _cleanup_old_sounds E w_pub = (Ok tt, out.2) /\
    f_data a = sox E (flite E []).
Proof.
  intros cfg E items rq w out.
  assert (Hrun : do_POST cfg E rq w
                 = (Ok (Sent (json_response 200
                                (ok_body (lit "15551234567") (lit "1700000000007")))),
                    out.2))
    by (vm_compute; reflexivity).
  split; [exact (f_equal fst Hrun)|].
  destruct (proj2 (default_message_only_when_absent cfg E rq w 64%Z items
                     eq_refl ltac:(discriminate) eq_refl eq_refl eq_refl)
                  (JInt 15551234567) eq_refl ltac:(discriminate))
    as (_ & _ & _ & Heffect).
  destruct (Heffect _ _ Hrun eq_refl)
    as (ms & w_pub & a & Hms & _ & Ha & Hsweep & _ & _ & _ & Hblank).
  exists ms, w_pub, a. split; [exact Hms|]. split; [exact Ha|]. split; [exact Hsweep|].
  exact (Hblank (lit "   ") eq_refl eq_refl).
Defined.

(** Such a request is answered 200, and the asset then holds sox's rendering
    of flite's speech for the empty string, which is not that of the
    default. *)
Example blank_message_is_spoken_empty :
  let E := Demo.calm 1700000000.0078125 in
  let out := do_POST Demo.cfg0 E
               (Demo.request0 (Some (lit "s3cret"))
                  (JDict [(lit "to", JInt 15551234567); (lit "message", JStr (lit "   "))]))
               (Demo.start Demo.empty_disk) in
  out.1 = Ok (Sent (json_response 200 (ok_body (lit "15551234567") (lit "1700000000007")))) /\
  exists f,
    sounds (fs out.2) !! lit "akira-alert-1700000000007.wav" = Some (Reg f) /\
    f_data f = sox E (flite E []) /\
    f_data f <> sox E (flite E (lit "Alert from Akira")).
Proof. vm_compute. split; [reflexivity|]. eexists. repeat split. discriminate. Qed.

(** X2. Synthesis comes before publication. In a successful origination
    there is a moment, ten operations after its start and right after the
    rename, at which the call file akira-<uid>.call holds the whole text and
    the asset akira-alert-<uid>.wav it names holds the resampled speech of the
    message, written at the sox step; all that runs after that moment is the
    retention sweep. *)
Theorem asset_is_ready_when_call_file_appears (cfg : config) (E : env)
        (to message : pystr) (w w' : world) (res : json) :
  originate_call cfg E to message w = (Ok res, w') ->
  exists ms w_pub f a,
    int_of_float (clock E (tick w) * 1000)%float = Some ms /\
    let uid := str_int ms in
    tick w_pub = 10 + tick w /\
    spool (fs w_pub) !! (lit "akira-" ++ uid ++ lit ".call") = Some (Reg f) /\
    f_data f = call_file_content cfg to (lit "akira-alert-" ++ uid) /\
    sounds (fs w_pub) !! (lit "akira-alert-" ++ uid ++ lit ".wav") = Some (Reg a) /\
    f_data a = sox E (flite E message) /\
    f_mtime a = clock E (3 + tick w) /\
    _cleanup_old_sounds E w_pub = (Ok tt, w').
Proof.
  intros H.
  destruct (originate_call_success cfg E to message w res w' H)
    as (ms & w_pub & f & a & Hms & _ & Ht & Hf & Hdf & Ha & Hda & Hma & Hsw).
  by exists ms, w_pub, f, a.
Qed.

Lemma asset_is_ready_when_call_file_appears_witness :
  let E := Demo.calm 1700000000.0078125 in
  let out := originate_call Demo.cfg0 E (lit "+15551234567") (lit "Disk full on NAS")
                            (Demo.start Demo.empty_disk) in
  exists ms w_pub f a,
    int_of_float (clock E (tick (Demo.start Demo.empty_disk)) * 1000)%float = Some ms /\
    let uid := str_int ms in
    tick w_pub = 10 + tick (Demo.start Demo.empty_disk) /\
    spool (fs w_pub) !! (lit "akira-" ++ uid ++ lit ".call") = Some (Reg f) /\
    f_data f = call_file_content Demo.cfg0 (lit "+15551234567") (lit "akira-alert-" ++ uid) /\
    sounds (fs w_pub) !! (lit "akira-alert-" ++ uid ++ lit ".wav") = Some (Reg a) /\
    f_data a = sox E (flite E (lit "Disk full on NAS")) /\
    f_mtime a = clock E (3 + tick (Demo.start Demo.empty_disk)) /\
    _cleanup_old_sounds E w_pub = (Ok tt, out.2).
Proof.
  intros E out.
  apply (asset_is_ready_when_call_file_appears Demo.cfg0 E (lit "+15551234567")
           (lit "Disk full on NAS") (Demo.start Demo.empty_disk) out.2
           (ok_body (lit "+15551234567") (lit "1700000000007"))).
  vm_compute. reflexivity.
Defined.

(** X3. One asset and one call file per successful request, under one
    identifier. When the clock reading of the sweep is less than
    MAX_SOUND_AGE_SECS after the reading at which sox wrote the asset, a
    successful origination returns with the asset akira-alert-<uid>.wav
    holding the resampled speech of the message and the call file
    akira-<uid>.call holding the whole text that names that asset. *)
Theorem fresh_asset_survives_the_sweep (cfg : config) (E : env)
        (to message : pystr) (w w' : world) (res : json) :
  originate_call cfg E to message w = (Ok res, w') ->
  (clock E (10 + tick w) - clock E (3 + tick w) <? float_of_int MAX_SOUND_AGE_SECS)%float
  = true ->
  exists ms f a,
    int_of_float (clock E (tick w) * 1000)%float = Some ms /\
    let uid := str_int ms in
    spool (fs w') !! (lit "akira-" ++ uid ++ lit ".call") = Some (Reg f) /\
    f_data f = call_file_content cfg to (lit "akira-alert-" ++ uid) /\
    sounds (fs w') !! (lit "akira-alert-" ++ uid ++ lit ".wav") = Some (Reg a) /\
    f_data a = sox E (flite E message).
Proof.
  intros H Hclock.
  destruct (originate_call_success cfg E to message w res w' H)
    as (ms & w_pub & f & a & Hms & _ & Ht & Hf & Hdf & Ha & Hda & Hma & Hsw).
  destruct (cleanup_exec E w_pub) as (tr & _ & Hfs & _ & _ & HF).
  rewrite Hsw in Hfs. simpl in Hfs.
  assert (Hswept : swept (clock E (tick w_pub)) (fs w_pub) (fs w')).
  { eapply hd_Forall; [exact Hfs|apply swept_refl|exact HF]. }
  destruct Hswept as [Hsp Hso].
  exists ms, f, a. split; [done|]. cbv zeta.
  split; [by rewrite Hsp|]. split; [done|]. split; [|done].
  unfold pystr in *.
  destruct (Hso (lit "akira-alert-" ++ str_int ms ++ lit ".wav"))
    as [Heq|(_ & a' & Ha' & _ & Hx)]; [congruence|].
  rewrite Ha in Ha'. injection Ha' as <-.
  unfold expired in Hx. rewrite Ht, Hma in Hx.
  apply float_ltb_asym in Hclock. congruence.
Qed.

Lemma fresh_asset_survives_the_sweep_witness :
  let E := Demo.calm 1700000000.0078125 in
  let out := originate_call Demo.cfg0 E (lit "+15551234567") (lit "Disk full on NAS")
                            (Demo.start Demo.empty_disk) in
  exists ms f a,
    int_of_float (clock E (tick (Demo.start Demo.empty_disk)) * 1000)%float = Some ms /\
    let uid := str_int ms in
    spool (fs out.2) !! (lit "akira-" ++ uid ++ lit ".call") = Some (Reg f) /\
    f_data f = call_file_content Demo.cfg0 (lit "+15551234567") (lit "akira-alert-" ++ uid) /\
    sounds (fs out.2) !! (lit "akira-alert-" ++ uid ++ lit ".wav") = Some (Reg a) /\
    f_data a = sox E (flite E (lit "Disk full on NAS")).
Proof.
  intros E out.
  apply (fresh_asset_survives_the_sweep Demo.cfg0 E (lit "+15551234567")
           (lit "Disk full on NAS") (Demo.start Demo.empty_disk) out.2
           (ok_body (lit "+15551234567") (lit "1700000000007")));
    vm_compute; reflexivity.
Defined.

(** The hypothesis on the clock is needed: when the clock is set two hours
    ahead between the sox step and the sweep, the request is answered with
    success and its own asset has been swept away. *)
Example clock_jump_sweeps_the_fresh_asset :
  let out := originate_call Demo.cfg0 Demo.jumping (lit "+15551234567")
                            (lit "Disk full on NAS") (Demo.start Demo.empty_disk) in
  out.1 = Ok (ok_body (lit "+15551234567") (lit "1700000000000")) /\
  (exists f, spool (fs out.2) !! lit "akira-1700000000000.call" = Some (Reg f)) /\
  sounds (fs out.2) !! lit "akira-alert-1700000000000.wav" = None.
Proof. vm_compute. repeat split. by eexists. Qed.

(* ===================================================================== *)
(** * A sweep in which nothing fails *)

Lemma sweep_entry_nofail E now name w :
  (forall n, tick w <= n -> fails E n = false) ->
  exists w',
    sweep_entry E now name w = (Ok tt, w') /\ tick w <= tick w' /\
    spool (fs w') = spool (fs w) /\
    forall n, sounds (fs w') !! n =
              if decide (n = name) then purge now n (sounds (fs w) !! n)
              else sounds (fs w) !! n.
Proof.
  intros Hnf. unfold sweep_entry, purge, is_asset, expired.
  destruct (startswith name (lit "akira-alert-")) eqn:Hp.
  2:{ exists w. split; [done|]. split; [done|]. split; [done|].
      intros n. destruct (decide (n = name)) as [->|]; [|done].
      rewrite Hp. simpl. by destruct (sounds (fs w) !! name) as [[]|]. }
  unfold mbind, M_bind, os_path_isfile, os_path_getmtime, os_remove, prim, entry. simpl.
  destruct (sounds (fs w) !! name) as [[f|t]|] eqn:He; simpl.
  - rewrite (Hnf (S (tick w))) by lia. simpl. rewrite He. simpl.
    destruct (float_of_int MAX_SOUND_AGE_SECS <? now - f_mtime f)%float eqn:Hx; simpl.
    + rewrite (Hnf (S (S (tick w)))) by lia. simpl. rewrite He. simpl.
      eexists. split; [reflexivity|]. simpl. split; [lia|]. split; [done|].
      intros n. destruct (decide (n = name)) as [->|Hn].
      * by rewrite lookup_delete_eq, He, Hp, Hx.
      * by rewrite lookup_delete_ne.
    + eexists. split; [reflexivity|]. simpl. split; [lia|]. split; [done|].
      intros n. destruct (decide (n = name)) as [->|Hn]; [|done].
      by rewrite He, Hp, Hx.
  - eexists. split; [reflexivity|]. simpl. split; [lia|]. split; [done|].
    intros n. destruct (decide (n = name)) as [->|Hn]; [|done]. by rewrite He.
  - eexists. split; [reflexivity|]. simpl. split; [lia|]. split; [done|].
    intros n. destruct (decide (n = name)) as [->|Hn]; [|done]. by rewrite He.
Qed.

Lemma purge_purge now n x : purge now n (purge now n x) = purge now n x.
Proof.
  unfold purge. destruct x as [[f|t]|]; try done.
  destruct (is_asset n && expired now f) eqn:H; [done|]. by rewrite H.
Qed.

Lemma for_each_sweep_nofail E now names w :
  (forall n, tick w <= n -> fails E n = false) ->
  exists w',
    for_each names (sweep_entry E now) w = (Ok tt, w') /\
    spool (fs w') = spool (fs w) /\
    forall n, sounds (fs w') !! n =
              if decide (n ∈ names) then purge now n (sounds (fs w) !! n)
              else sounds (fs w) !! n.
Proof.
  revert w. induction names as [|name names IH]; intros w Hnf.
  - exists w. split; [done|]. split; [done|].
    intros n. destruct (decide (n ∈ [])) as [H|]; [|done].
    by apply elem_of_nil in H.
  - destruct (sweep_entry_nofail E now name w Hnf) as (w1 & Hrun1 & Ht1 & Hsp1 & Hso1).
    destruct (IH w1) as (w' & Hrun & Hsp & Hso).
    { intros n Hn. apply Hnf. lia. }
    exists w'. split; [|split; [congruence|]].
    { simpl. unfold mbind, M_bind. by rewrite Hrun1. }
    intros n. rewrite Hso.
    destruct (decide (n ∈ names)) as [Hin|Hin];
      destruct (decide (n ∈ name :: names)) as [Hin'|Hin'];
      rewrite Hso1; destruct (decide (n = name)) as [->|Hn];
      try done; try apply purge_purge.
    + exfalso. apply Hin'. by right.
    + exfalso. apply Hin'. by right.
    + by apply elem_of_cons in Hin' as [?|?].
    + exfalso. apply Hin'. by left.
Qed.

(** X4. A sweep in which no operation fails is complete: afterwards every
    entry of the audio directory that was a regular file with the asset
    prefix and older than MAX_SOUND_AGE_SECS at the reading of the sweep is
    gone, and every other entry is as it was. *)
Theorem sweep_without_failures_is_complete (E : env) (w : world) :
  (forall n, tick w < n -> fails E n = false) ->
  let now := clock E (tick w) in
  let out := _cleanup_old_sounds E w in
  out.1 = Ok tt /\
  forall n,
    sounds (fs out.2) !! n =
    match sounds (fs w) !! n with
    | Some (Reg f) =>
        if startswith n (lit "akira-alert-")
           && (float_of_int MAX_SOUND_AGE_SECS <? now - f_mtime f)%float
        then None else Some (Reg f)
    | x => x
    end.
Proof.
  intros Hnf now out.
  set (w1 := {| fs := fs w; tick := S (S (tick w)); seen := seen w |}).
  destruct (for_each_sweep_nofail E now (map fst (map_to_list (sounds (fs w)))) w1)
    as (w' & Hrun & _ & Hso).
  { intros n Hn. apply Hnf. simpl in Hn. lia. }
  assert (Hout : out = (Ok tt, w')).
  { unfold out, _cleanup_old_sounds, try_except.
    unfold mbind at 1, M_bind at 1. rewrite time_time_run.
    unfold mbind at 1, M_bind at 1. unfold os_listdir at 1, prim at 1. simpl.
    rewrite (Hnf (S (tick w))) by lia. simpl. fold w1 now. by rewrite Hrun. }
  rewrite Hout. simpl. split; [done|].
  intros n. rewrite Hso. simpl.
  destruct (decide (n ∈ map fst (map_to_list (sounds (fs w))))) as [Hin|Hin].
  { unfold purge, is_asset, expired. by destruct (sounds (fs w) !! n) as [[f|t]|]. }
  destruct (sounds (fs w) !! n) as [x|] eqn:Hn; [|done].
  exfalso. apply Hin. apply list_elem_of_In, in_map_iff. exists (n, x).
  split; [done|]. by apply list_elem_of_In, elem_of_map_to_list.
Qed.

Lemma sweep_without_failures_is_complete_witness :
  let E := Demo.calm 10000 in
  let w := Demo.start Demo.old_sounds in
  let now := clock E (tick w) in
  let out := _cleanup_old_sounds E w in
  out.1 = Ok tt /\
  forall n,
    sounds (fs out.2) !! n =
    match sounds (fs w) !! n with
    | Some (Reg f) =>
        if startswith n (lit "akira-alert-")
           && (float_of_int MAX_SOUND_AGE_SECS <? now - f_mtime f)%float
        then None else Some (Reg f)
    | x => x
    end.
Proof.
  apply (sweep_without_failures_is_complete (Demo.calm 10000) (Demo.start Demo.old_sounds)).
  reflexivity.
Defined.

(* ===================================================================== *)
(** * The handler: requests it refuses *)

(** X5. An authenticated POST to /call whose body is not JSON, or is a JSON
    object in which "to" is absent or is an empty or white-space-only string,
    is answered 400 (Invalid JSON, respectively Missing 'to') and leaves the
    world as it was: nothing is synthesised or written. *)
Theorem invalid_body_is_400_without_effects (cfg : config) (E : env) (rq : request)
        (w : world) (len : Z) :
  rq_path rq = lit "/call" ->
  RELAY_TOKEN cfg <> [] ->
  rq_token rq = Some (RELAY_TOKEN cfg) ->
  rq_length rq = Some len ->
  (rq_body rq = None ->
   do_POST cfg E rq w = (Ok (Sent (error_page 400 (lit "Invalid JSON"))), w)) /\
  (forall items,
     rq_body rq = Some (JDict items) ->
     dict_lookup items (lit "to") = None \/
     (exists s, dict_lookup items (lit "to") = Some (JStr s) /\ forallb isspace s = true) ->
     do_POST cfg E rq w = (Ok (Sent (error_page 400 (lit "Missing 'to'"))), w)).
Proof.
  intros Hp Ht Hh Hl. split.
  - intros Hb. unfold do_POST.
    rewrite Hp, pystr_eqb_refl, (is_empty_false _ Ht), Hh, Hl, Hb. simpl.
    by rewrite bool_decide_eq_true_2.
  - intros items Hb Hto.
    rewrite (do_POST_accepted cfg E rq w len items Hp Ht Hh Hl Hb).
    destruct Hto as [->|(s & -> & Hs)]; simpl; [done|].
    by rewrite (proj2 (strip_nil_iff s) Hs).
Qed.

Lemma invalid_body_is_400_without_effects_witness :
  let rq := Demo.request0 (Some (lit "s3cret"))
              (JDict [(lit "to", JStr (lit "  ")); (lit "message", JStr (lit "hello"))]) in
  let E := Demo.calm 1700000000 in
  let w := Demo.start Demo.empty_disk in
  (rq_body rq = None ->
   do_POST Demo.cfg0 E rq w = (Ok (Sent (error_page 400 (lit "Invalid JSON"))), w)) /\
  (forall items,
     rq_body rq = Some (JDict items) ->
     dict_lookup items (lit "to") = None \/
     (exists s, dict_lookup items (lit "to") = Some (JStr s) /\ forallb isspace s = true) ->
     do_POST Demo.cfg0 E rq w = (Ok (Sent (error_page 400 (lit "Missing 'to'"))), w)).
Proof.
  apply (invalid_body_is_400_without_effects Demo.cfg0 (Demo.calm 1700000000)
           (Demo.request0 (Some (lit "s3cret"))
              (JDict [(lit "to", JStr (lit "  ")); (lit "message", JStr (lit "hello"))]))
           (Demo.start Demo.empty_disk) 64%Z);
    try reflexivity; discriminate.
Defined.

(** X6. An authenticated POST to /call whose Content-Length is not a number,
    or whose body is valid JSON but not an object (a list, a string, a
    number, true, false or null), gets no response at all: the exception
    ([ValueError] from [int], [AttributeError] from [body.get]) is raised
    outside the handler's [try] blocks and leaves [do_POST]. The world is as
    it was. *)
Theorem non_object_body_gets_no_response (cfg : config) (E : env) (rq : request)
        (w : world) :
  rq_path rq = lit "/call" ->
  RELAY_TOKEN cfg <> [] ->
  rq_token rq = Some (RELAY_TOKEN cfg) ->
  rq_length rq = None \/
  (exists len j, rq_length rq = Some len /\ rq_body rq = Some j /\
                 forall items, j <> JDict items) ->
  do_POST cfg E rq w = (Ok Unhandled, w).
Proof.
  intros Hp Ht Hh Hbad. unfold do_POST.
  rewrite Hp, pystr_eqb_refl, (is_empty_false _ Ht), Hh. simpl.
  rewrite bool_decide_eq_true_2 by done. simpl.
  destruct Hbad as [->|(len & j & -> & -> & Hj)]; [done|].
  destruct j; try done. by destruct (Hj items).
Qed.

Lemma non_object_body_gets_no_response_witness :
  do_POST Demo.cfg0 (Demo.calm 1700000000)
          (Demo.request0 (Some (lit "s3cret")) (JList [JStr (lit "+15551234567")]))
          (Demo.start Demo.empty_disk)
  = (Ok Unhandled, Demo.start Demo.empty_disk).
Proof.
  apply (non_object_body_gets_no_response Demo.cfg0 (Demo.calm 1700000000)
           (Demo.request0 (Some (lit "s3cret")) (JList [JStr (lit "+15551234567")]))
           (Demo.start Demo.empty_disk));
    [reflexivity | discriminate | reflexivity |].
  right. exists 64%Z, (JList [JStr (lit "+15551234567")]).
  split; [reflexivity|]. split; [reflexivity|]. discriminate.
Defined.

(* ===================================================================== *)
(** * The server over a sequence of requests *)

Lemma handle_without_token cfg E r w :
  lacks_token cfg r ->
  exists rp, handle cfg E r w = (Ok rp, w) /\
             match r with
             | GET _ => True
             | POST _ => exists x, rp = Sent x /\
                                   (status x = 403 \/ status x = 404 \/ status x = 500)%Z /\
                                   forall data, payload x <> JsonText data
             end.
Proof.
  destruct r as [path|rq]; simpl.
  - intros _. unfold do_GET. destruct (pystr_eqb path (lit "/health")); by eexists.
  - intros Hh. unfold do_POST.
    destruct (negb (pystr_eqb (rq_path rq) (lit "/call"))).
    { eexists. split; [reflexivity|]. eexists. split; [reflexivity|]. simpl. auto. }
    destruct (is_empty (RELAY_TOKEN cfg)).
    { eexists. split; [reflexivity|]. eexists. split; [reflexivity|]. simpl. auto. }
    rewrite (bool_decide_eq_false_2 _ Hh). simpl.
    eexists. split; [reflexivity|]. eexists. split; [reflexivity|]. simpl. auto.
Qed.

(** X7. Requests without the token change nothing, however many. Serving
    any sequence of GET requests and of POST requests whose X-Relay-Token is
    missing or wrong returns one reply per request and leaves the world as it
    was (no operation is run); each such POST is answered 403, 404 or 500 with
    an error page. *)
Theorem requests_without_token_change_nothing (cfg : config) (E : env)
        (rqs : list http_request) (w : world) :
  Forall (lacks_token cfg) rqs ->
  exists replies,
    serve cfg E rqs w = (Ok replies, w) /\
    Forall2 (fun r rp =>
               match r with
               | GET _ => True
               | POST _ => exists x, rp = Sent x /\
                                     (status x = 403 \/ status x = 404 \/ status x = 500)%Z /\
                                     forall data, payload x <> JsonText data
               end) rqs replies.
Proof.
  induction 1 as [|r rqs Hr _ IH]; simpl.
  - by exists [].
  - destruct (handle_without_token cfg E r w Hr) as (rp & Hrun & Hrp).
    destruct IH as (replies & Hserve & Hall).
    exists (rp :: replies). split; [|by constructor].
    unfold mbind, M_bind. rewrite Hrun. fold (serve cfg E rqs w). by rewrite Hserve.
Qed.

Lemma requests_without_token_change_nothing_witness :
  let rqs := [POST (Demo.request0 (Some (lit "guess")) Demo.body0);
              GET (lit "/health");
              POST (Demo.request0 None Demo.body0)] in
  exists replies,
    serve Demo.cfg0 (Demo.calm 1700000000) rqs (Demo.start Demo.empty_disk)
    = (Ok replies, Demo.start Demo.empty_disk) /\
    Forall2 (fun r rp =>
               match r with
               | GET _ => True
               | POST _ => exists x, rp = Sent x /\
                                     (status x = 403 \/ status x = 404 \/ status x = 500)%Z /\
                                     forall data, payload x <> JsonText data
               end) rqs replies.
Proof.
  apply (requests_without_token_change_nothing Demo.cfg0 (Demo.calm 1700000000)
           [POST (Demo.request0 (Some (lit "guess")) Demo.body0);
            GET (lit "/health");
            POST (Demo.request0 None Demo.body0)]
           (Demo.start Demo.empty_disk)).
  repeat constructor; discriminate.
Defined.

Lemma startswith_app p s : startswith (p ++ s) p = true.
Proof. induction p as [|c p IH]; simpl; [by destruct s|]. by rewrite N.eqb_refl. Qed.

Lemma tmp_name_ends uid : ends_with (tmp_name uid) (lit ".tmp") = true.
Proof.
  unfold ends_with, tmp_name. rewrite rev_app_distr. apply startswith_app.
Qed.

Lemma genuine_untouched cfg s0 tmp d0 d :
  ends_with tmp (lit ".tmp") = true ->
  genuine cfg s0 d0 -> untouched (spool d0) tmp d -> genuine cfg s0 d.
Proof.
  intros Htmp Hg Hu n Hn. rewrite (Hu n); [by apply Hg|]. intros ->. congruence.
Qed.

Lemma genuine_published cfg s0 uid to d0 d :
  genuine cfg s0 d0 ->
  published (spool d0) (tmp_name uid) (call_name uid)
            (call_file_content cfg to (lit "akira-alert-" ++ uid)) d ->
  genuine cfg s0 d.
Proof.
  intros Hg (Hothers & _ & f & Hf & Hdata) n Hn.
  destruct (decide (n = call_name uid)) as [->|Hne].
  - right. by exists to, uid, f.
  - rewrite (Hothers n); [by apply Hg| |done].
    intros ->. pose proof (tmp_name_ends uid). congruence.
Qed.

Lemma originate_call_keeps_genuine cfg E to message s0 :
  keeps (genuine cfg s0) (originate_call cfg E to message).
Proof.
  intros w Hw. eapply exec_mono; [apply originate_call_exec|].
  intros tr r w' _ _ H.
  destruct (int_of_float (clock E (tick w) * 1000)%float) as [ms|].
  - destruct H as (post & pre & -> & Hpre & Hpost & _). apply Forall_app. split.
    + eapply Forall_impl; [exact Hpost|]. intros d Hd. by eapply genuine_published.
    + eapply Forall_impl; [exact Hpre|]. intros d Hd.
      eapply genuine_untouched; [apply tmp_name_ends|exact Hw|exact Hd].
  - destruct H as [-> _]. constructor.
Qed.

Lemma handle_keeps_genuine cfg E r s0 : keeps (genuine cfg s0) (handle cfg E r).
Proof.
  destruct r as [path|rq]; simpl.
  - unfold do_GET. destruct (pystr_eqb path (lit "/health")); apply keeps_ret.
  - unfold do_POST.
    destruct (negb (pystr_eqb _ _)); [apply keeps_ret|].
    destruct (is_empty (RELAY_TOKEN cfg)); [apply keeps_ret|].
    destruct (negb (bool_decide _)); [apply keeps_ret|].
    destruct (rq_length rq); [|apply keeps_ret].
    destruct (rq_body rq) as [[]|]; try apply keeps_ret.
    destruct (is_empty _); [apply keeps_ret|].
    apply keeps_try; [|intros e; apply keeps_ret].
    apply keeps_bind; [apply originate_call_keeps_genuine|intros res; apply keeps_ret].
Qed.

Lemma serve_keeps_genuine cfg E rqs s0 : keeps (genuine cfg s0) (serve cfg E rqs).
Proof.
  induction rqs as [|r rqs IH]; simpl; [apply keeps_ret|].
  apply keeps_bind; [apply handle_keeps_genuine|intros rp].
  apply keeps_bind; [exact IH|intros rps; apply keeps_ret].
Qed.

(** X8. Over the whole life of the server the telephony engine never sees a
    half-written call file. Whatever requests are served and whatever fails,
    in every state the disk goes through each entry of the pickup directory
    whose name does not end in .tmp is as it was when serving began, or is a
    file akira-<uid>.call holding the complete text rendered for a
    destination and that identifier. *)
Theorem served_call_files_are_always_complete (cfg : config) (E : env)
        (rqs : list http_request) (w : world) :
  let out := serve cfg E rqs w in
  exists tr,
    seen out.2 = tr ++ seen w /\
    Forall (fun d =>
              forall n, ends_with n (lit ".tmp") = false ->
                spool d !! n = spool (fs w) !! n \/
                exists to uid f,
                  n = lit "akira-" ++ uid ++ lit ".call" /\
                  spool d !! n = Some (Reg f) /\
                  f_data f = call_file_content cfg to (lit "akira-alert-" ++ uid))
           (fs out.2 :: tr).
Proof.
  intros out.
  assert (Hw : genuine cfg (spool (fs w)) (fs w)) by (intros n _; by left).
  destruct (serve_keeps_genuine cfg E rqs (spool (fs w)) w Hw) as (tr & Hs & Hf & _ & HF).
  exists tr. split; [exact Hs|]. apply Forall_cons. split; [|exact HF].
  fold out in Hf. eapply (hd_Forall (genuine cfg (spool (fs w)))); eauto.
Qed.

(* ===================================================================== *)
(** * What the status of a reply says about the disk *)

Lemma originate_call_raise_untouched cfg E to message w e w' :
  originate_call cfg E to message w = (Raise e, w') ->
  forall n, ends_with n (lit ".tmp") = false -> spool (fs w') !! n = spool (fs w) !! n.
Proof.
  intros Hrun n Hn.
  destruct (exec_run _ _ _ _ _ (originate_call_exec cfg E to message w) Hrun)
    as (tr & _ & Hf & _ & H).
  destruct (int_of_float (clock E (tick w) * 1000)%float) as [ms|].
  - destruct H as (post & pre & -> & Hpre & _ & ->). simpl in Hf.
    assert (Hu : untouched (spool (fs w)) (tmp_name (str_int ms)) (fs w')).
    { eapply hd_Forall; [exact Hf| |exact Hpre]. by intros ? ?. }
    apply Hu. intros ->. pose proof (tmp_name_ends (str_int ms)). congruence.
  - destruct H as [-> _]. simpl in Hf. by rewrite Hf.
Qed.

(** X9. The status of the reply to a POST tells what happened to the pickup
    directory. A 200 means the call file is there: the file the reply names
    in call_file exists under akira-<uid>.call with the whole text for the
    destination the reply gives in to. Any other status means nothing was
    published: every entry whose name does not end in .tmp is as before the
    request. *)
Theorem status_tells_whether_published (cfg : config) (E : env) (rq : request)
        (w w' : world) (r : response) :
  do_POST cfg E rq w = (Ok (Sent r), w') ->
  (status r = 200%Z ->
   exists to ms f,
     let uid := str_int ms in
     payload r =
       JsonText
         (JDict [(lit "status", JStr (lit "ok"));
                 (lit "to", JStr to);
                 (lit "sound", JStr (lit "akira-alert-" ++ uid));
                 (lit "call_file",
                  JStr (lit "/var/spool/asterisk/outgoing/akira-" ++ uid ++ lit ".call"))]) /\
     spool (fs w') !! (lit "akira-" ++ uid ++ lit ".call") = Some (Reg f) /\
     f_data f = call_file_content cfg to (lit "akira-alert-" ++ uid)) /\
  (status r <> 200%Z ->
   forall n, ends_with n (lit ".tmp") = false ->
             spool (fs w') !! n = spool (fs w) !! n).
Proof.
  unfold do_POST.
  destruct (negb (pystr_eqb _ _)); [intros [= <- <-]; by split|].
  destruct (is_empty (RELAY_TOKEN cfg)); [intros [= <- <-]; by split|].
  destruct (negb (bool_decide _)); [intros [= <- <-]; by split|].
  destruct (rq_length rq); [|discriminate].
  destruct (rq_body rq) as [[]|]; try discriminate;
    try (intros [= <- <-]; by split).
  destruct (is_empty _); [intros [= <- <-]; by split|].
  unfold try_except, mbind, M_bind.
  match goal with
  | |- context [originate_call cfg E ?t ?m w] =>
      destruct (originate_call cfg E t m w) as [[res|e] w1] eqn:Ho;
      set (to := t) in *; set (message := m) in *
  end.
  - intros [= <- <-]. split; [intros _|done].
    pose proof (originate_call_publishes cfg E to message w res) as Hpub.
    rewrite Ho in Hpub. destruct (Hpub eq_refl) as (ms & Hms & _ & _ & f & Hf & Hdata).
    apply originate_call_ok in Ho as (ms' & Hms' & ->).
    assert (ms' = ms) by congruence. subst ms'.
    by exists to, ms, f.
  - intros [= <- <-]. split; [done|intros _].
    by eapply originate_call_raise_untouched.
Qed.

Lemma status_tells_whether_published_witness :
  let E := Demo.failing_at 9 1700000000.0078125 in
  let rq := Demo.request0 (Some (lit "s3cret")) Demo.body0 in
  let w := Demo.start Demo.empty_disk in
  let r := json_response 500 (error_body (errtext E 9)) in
  (status r = 200%Z ->
   exists to ms f,
     let uid := str_int ms in
     payload r =
       JsonText
         (JDict [(lit "status", JStr (lit "ok"));
                 (lit "to", JStr to);
                 (lit "sound", JStr (lit "akira-alert-" ++ uid));
                 (lit "call_file",
                  JStr (lit "/var/spool/asterisk/outgoing/akira-" ++ uid ++ lit ".call"))]) /\
     spool (fs (do_POST Demo.cfg0 E rq w).2) !! (lit "akira-" ++ uid ++ lit ".call")
     = Some (Reg f) /\
     f_data f = call_file_content Demo.cfg0 to (lit "akira-alert-" ++ uid)) /\
  (status r <> 200%Z ->
   forall n, ends_with n (lit ".tmp") = false ->
             spool (fs (do_POST Demo.cfg0 E rq w).2) !! n = spool (fs w) !! n).
Proof.
  intros E rq w r.
  apply (status_tells_whether_published Demo.cfg0 E rq w (do_POST Demo.cfg0 E rq w).2 r).
  vm_compute. reflexivity.
Defined.

(* ===================================================================== *)
(** * Failures of the speech pipeline *)

Lemma emit_run_fail E p data n d :
  fails E n = true ->
  exists ds, emit E p data n d = (ds, Raise (errtext E n)) /\
             (List.last ds d = d \/ exists x, List.last ds d = put p (Reg x) d).
Proof.
  intros Hn. unfold emit. rewrite Hn. eexists. split; [reflexivity|].
  induction (partial E n) as [|k l IH] using rev_ind; simpl; [by left|].
  right. rewrite map_app. simpl. rewrite last_last. by eexists.
Qed.

Lemma run_prim {A} (act : nat -> disk -> list disk * result A) w ds r :
  act (tick w) (fs w) = (ds, r) ->
  prim act w = (r, {| fs := List.last ds (fs w); tick := S (tick w);
                      seen := rev ds ++ seen w |}).
Proof. intros H. unfold prim. by rewrite H. Qed.

Lemma pipeline_flite_fails {A} E message (raw final : pystr) (k : M A) w :
  fails E (tick w) = false ->
  fails E (S (tick w)) = true ->
  exists w',
    (os_makedirs E SOUNDS_DIR;;
     run_flite E message (SOUNDS_DIR, raw);;
     run_sox E (SOUNDS_DIR, raw) (SOUNDS_DIR, final);;
     k) w = (Raise (errtext E (S (tick w))), w') /\
    tick w' = 2 + tick w /\
    spool (fs w') = spool (fs w) /\
    forall n, n <> raw -> sounds (fs w') !! n = sounds (fs w) !! n.
Proof.
  intros H0 H1.
  destruct (emit_run_fail E (SOUNDS_DIR, raw) (flite E message) (S (tick w)) (fs w) H1)
    as (ds & Hemit & Hlast).
  eexists. split.
  { unfold mbind at 1, M_bind at 1. unfold os_makedirs.
    rewrite (run_prim (fun n d => if fails E n then oserror E n else ([], Ok tt)) w [] (Ok tt))
      by (by rewrite H0).
    unfold mbind at 1, M_bind at 1. unfold run_flite. simpl.
    by rewrite (run_prim (emit E (SOUNDS_DIR, raw) (flite E message))
                  {| fs := fs w; tick := S (tick w); seen := seen w |}
                  ds (Raise (errtext E (S (tick w)))) Hemit). }
  simpl. split; [done|].
  destruct Hlast as [->|(x & ->)]; simpl; [done|].
  split; [done|]. intros n Hn. by rewrite lookup_insert_ne.
Qed.

Lemma pipeline_sox_fails {A} E message (raw final : pystr) (k : M A) w :
  raw <> final ->
  fails E (tick w) = false ->
  fails E (S (tick w)) = false ->
  fails E (S (S (tick w))) = true ->
  exists w',
    (os_makedirs E SOUNDS_DIR;;
     run_flite E message (SOUNDS_DIR, raw);;
     run_sox E (SOUNDS_DIR, raw) (SOUNDS_DIR, final);;
     k) w = (Raise (errtext E (S (S (tick w)))), w') /\
    tick w' = 3 + tick w /\
    spool (fs w') = spool (fs w) /\
    (exists x, sounds (fs w') !! raw = Some (Reg x) /\ f_data x = flite E message) /\
    forall n, n <> raw -> n <> final -> sounds (fs w') !! n = sounds (fs w) !! n.
Proof.
  intros Hne H0 H1 H2.
  destruct (emit_ok E (SOUNDS_DIR, raw) (flite E message) (S (tick w)) (fs w) H1)
    as (ds1 & x1 & Hemit1 & Hx1).
  set (d1 := put (SOUNDS_DIR, raw) (Reg x1) (fs w)).
  destruct (emit_run_fail E (SOUNDS_DIR, final) (sox E (f_data x1)) (S (S (tick w))) d1 H2)
    as (ds2 & Hemit2 & Hlast).
  eexists. split.
  { unfold mbind at 1, M_bind at 1. unfold os_makedirs.
    rewrite (run_prim (fun n d => if fails E n then oserror E n else ([], Ok tt)) w [] (Ok tt))
      by (by rewrite H0).
    unfold mbind at 1, M_bind at 1. unfold run_flite. simpl.
    rewrite (run_prim (emit E (SOUNDS_DIR, raw) (flite E message))
               {| fs := fs w; tick := S (tick w); seen := seen w |} _ _ Hemit1).
    unfold mbind at 1, M_bind at 1. unfold run_sox.
    erewrite (run_prim _ _ ds2 (Raise (errtext E (S (S (tick w)))))); [reflexivity|].
    simpl. rewrite last_last. unfold entry. simpl. rewrite lookup_insert_eq.
    exact Hemit2. }
  simpl. rewrite last_last. fold d1. split; [done|].
  destruct Hlast as [->|(x & ->)]; unfold d1; simpl.
  - split; [done|]. split; [exists x1; by rewrite lookup_insert_eq|].
    intros n Hn _. by rewrite lookup_insert_ne.
  - split; [done|]. split.
    + exists x1. by rewrite lookup_insert_ne, lookup_insert_eq.
    + intros n Hn1 Hn2. by rewrite !lookup_insert_ne.
Qed.

Lemma originate_call_from_tts cfg E to message w ms e w' :
  int_of_float (clock E (tick w) * 1000)%float = Some ms ->
  generate_tts E message (str_int ms)
               {| fs := fs w; tick := S (tick w); seen := seen w |} = (Raise e, w') ->
  originate_call cfg E to message w = (Raise e, w').
Proof.
  intros Hms Hrun. unfold originate_call.
  unfold mbind at 1, M_bind at 1. rewrite time_time_run.
  unfold mbind at 1, M_bind at 1. unfold int_. rewrite Hms.
  unfold mret at 1, M_ret at 1. unfold mbind at 1, M_bind at 1. by rewrite Hrun.
Qed.

(** X11. When flite fails, sox is not run: the origination raises flite's
    error after three operations (the clock, the directory check, flite),
    the pickup directory is untouched, and in the audio directory only the
    raw file of the request can differ from before; the asset name is as it
    was. *)
Theorem flite_failure_stops_before_sox (cfg : config) (E : env) (to message : pystr)
        (w : world) (ms : Z) :
  int_of_float (clock E (tick w) * 1000)%float = Some ms ->
  fails E (1 + tick w) = false ->      (* os.makedirs *)
  fails E (2 + tick w) = true ->       (* flite *)
  let out := originate_call cfg E to message w in
  out.1 = Raise (errtext E (2 + tick w)) /\
  tick out.2 = 3 + tick w /\
  spool (fs out.2) = spool (fs w) /\
  forall n, n <> lit "akira-alert-" ++ str_int ms ++ lit "-raw.wav" ->
            sounds (fs out.2) !! n = sounds (fs w) !! n.
Proof.
  intros Hms H1 H2 out.
  set (w1 := {| fs := fs w; tick := S (tick w); seen := seen w |}).
  destruct (pipeline_flite_fails E message
              ((lit "akira-alert-" ++ str_int ms) ++ lit "-raw.wav")
              ((lit "akira-alert-" ++ str_int ms) ++ lit ".wav")
              (os_remove E (SOUNDS_DIR, (lit "akira-alert-" ++ str_int ms) ++ lit "-raw.wav");;
               try_except (shutil_chown E (SOUNDS_DIR,
                             (lit "akira-alert-" ++ str_int ms) ++ lit ".wav")
                             (lit "asterisk") (lit "asterisk")) (fun _ => mret tt);;
               mret (lit "akira-alert-" ++ str_int ms)) w1 H1 H2)
    as (w' & Hrun & Ht & Hsp & Hso).
  assert (Hout : out = (Raise (errtext E (2 + tick w)), w')).
  { apply (originate_call_from_tts cfg E to message w ms); [done|exact Hrun]. }
  rewrite Hout. simpl. split; [done|]. split; [exact Ht|]. split; [exact Hsp|].
  intros n Hn. apply Hso. by rewrite <- app_assoc.
Qed.

Lemma flite_failure_stops_before_sox_witness :
  let E := Demo.failing_at 2 1700000000.0078125 in
  let w := Demo.start Demo.old_sounds in
  let out := originate_call Demo.cfg0 E (lit "+15551234567") (lit "Disk full on NAS") w in
  out.1 = Raise (errtext E (2 + tick w)) /\
  tick out.2 = 3 + tick w /\
  spool (fs out.2) = spool (fs w) /\
  forall n, n <> lit "akira-alert-" ++ str_int 1700000000007 ++ lit "-raw.wav" ->
            sounds (fs out.2) !! n = sounds (fs w) !! n.
Proof.
  apply (flite_failure_stops_before_sox Demo.cfg0 (Demo.failing_at 2 1700000000.0078125)
           (lit "+15551234567") (lit "Disk full on NAS") (Demo.start Demo.old_sounds)
           1700000000007%Z); vm_compute; reflexivity.
Defined.

(** X12. When sox fails after flite has succeeded, the origination raises
    sox's error after four operations and the raw file is left behind with
    flite's whole output: nothing on this path removes it. The pickup
    directory is untouched, and in the audio directory only the raw file and
    the asset name of the request can differ from before. *)
Theorem sox_failure_leaves_the_raw_file (cfg : config) (E : env) (to message : pystr)
        (w : world) (ms : Z) :
  int_of_float (clock E (tick w) * 1000)%float = Some ms ->
  fails E (1 + tick w) = false ->      (* os.makedirs *)
  fails E (2 + tick w) = false ->      (* flite *)
  fails E (3 + tick w) = true ->       (* sox *)
  let out := originate_call cfg E to message w in
  out.1 = Raise (errtext E (3 + tick w)) /\
  tick out.2 = 4 + tick w /\
  spool (fs out.2) = spool (fs w) /\
  (exists x, sounds (fs out.2) !! (lit "akira-alert-" ++ str_int ms ++ lit "-raw.wav")
             = Some (Reg x) /\
             f_data x = flite E message) /\
  forall n, n <> lit "akira-alert-" ++ str_int ms ++ lit "-raw.wav" ->
            n <> lit "akira-alert-" ++ str_int ms ++ lit ".wav" ->
            sounds (fs out.2) !! n = sounds (fs w) !! n.
Proof.
  intros Hms H1 H2 H3 out.
  set (w1 := {| fs := fs w; tick := S (tick w); seen := seen w |}).
  destruct (pipeline_sox_fails E message
              ((lit "akira-alert-" ++ str_int ms) ++ lit "-raw.wav")
              ((lit "akira-alert-" ++ str_int ms) ++ lit ".wav")
              (os_remove E (SOUNDS_DIR, (lit "akira-alert-" ++ str_int ms) ++ lit "-raw.wav");;
               try_except (shutil_chown E (SOUNDS_DIR,
                             (lit "akira-alert-" ++ str_int ms) ++ lit ".wav")
                             (lit "asterisk") (lit "asterisk")) (fun _ => mret tt);;
               mret (lit "akira-alert-" ++ str_int ms)) w1
              (raw_name_neq _) H1 H2 H3)
    as (w' & Hrun & Ht & Hsp & Hraw & Hso).
  assert (Hout : out = (Raise (errtext E (3 + tick w)), w')).
  { apply (originate_call_from_tts cfg E to message w ms); [done|exact Hrun]. }
  rewrite Hout. simpl. split; [done|]. split; [exact Ht|]. split; [exact Hsp|].
  rewrite <- !app_assoc in Hraw, Hso. split; [exact Hraw|exact Hso].
Qed.

Lemma sox_failure_leaves_the_raw_file_witness :
  let E := Demo.failing_at 3 1700000000.0078125 in
  let w := Demo.start Demo.old_sounds in
  let out := originate_call Demo.cfg0 E (lit "+15551234567") (lit "Disk full on NAS") w in
  out.1 = Raise (errtext E (3 + tick w)) /\
  tick out.2 = 4 + tick w /\
  spool (fs out.2) = spool (fs w) /\
  (exists x, sounds (fs out.2)
               !! (lit "akira-alert-" ++ str_int 1700000000007 ++ lit "-raw.wav")
             = Some (Reg x) /\
             f_data x = flite E (lit "Disk full on NAS")) /\
  forall n, n <> lit "akira-alert-" ++ str_int 1700000000007 ++ lit "-raw.wav" ->
            n <> lit "akira-alert-" ++ str_int 1700000000007 ++ lit ".wav" ->
            sounds (fs out.2) !! n = sounds (fs w) !! n.
Proof.
  apply (sox_failure_leaves_the_raw_file Demo.cfg0 (Demo.failing_at 3 1700000000.0078125)
           (lit "+15551234567") (lit "Disk full on NAS") (Demo.start Demo.old_sounds)
           1700000000007%Z); vm_compute; reflexivity.
Defined.

(* ===================================================================== *)
(** * The client skill *)

(** X13. [call_phone] sends at most one request, and never one without a
    token, a relay URL or a destination: a request that is sent is the POST
    to RELAY_URL/call carrying the configured token, the JSON content type,
    a timeout of 15 s and the object with exactly the given to and message;
    with any of the three empty, or a URL that [Request] rejects, nothing is
    sent. *)
Theorem call_phone_sends_one_well_formed_request (S : Client.settings) (W : Client.net)
        (message to : pystr) :
  let sent := (Client.call_phone S W message to).1 in
  (sent = [] /\
   (Client.RELAY_TOKEN S = [] \/ Client.RELAY_URL S = [] \/ to = [] \/
    Client.request_error W (Client.RELAY_URL S ++ lit "/call") <> None)) \/
  (sent = [{| Client.url := Client.RELAY_URL S ++ lit "/call";
              Client.data := JDict [(lit "to", JStr to); (lit "message", JStr message)];
              Client.h_content_type := lit "application/json";
              Client.h_relay_token := Client.RELAY_TOKEN S;
              Client.timeout := 15 |}] /\
   Client.RELAY_TOKEN S <> [] /\ Client.RELAY_URL S <> [] /\ to <> [] /\
   Client.request_error W (Client.RELAY_URL S ++ lit "/call") = None).
Proof.
  unfold Client.call_phone.
  destruct (Client.RELAY_TOKEN S) as [|c1 t1] eqn:Ht; simpl; [left; auto|].
  destruct (Client.RELAY_URL S) as [|c2 t2] eqn:Hu; simpl; [left; auto|].
  destruct to as [|c3 t3]; simpl; [left; auto|].
  destruct (Client.request_error W _) as [e|] eqn:He; simpl.
  - left. split; [done|]. do 3 right. discriminate.
  - right. by repeat split.
Qed.

(** X14. What [call_phone] returns is the relay's own JSON answer to the one
    request it sent, or an object whose status is "error" with a string
    reason; for an HTTP error status whose body could be read the object also
    has the code, and the reason is the status phrase, a colon and the body.
    It raises in two cases only: before anything is sent, when [Request]
    rejects the URL, and after the request was sent, when reading the body of
    an HTTP error raises inside the handler, which no [except] covers. *)
Theorem call_phone_result_is_answer_or_error (S : Client.settings) (W : Client.net)
        (message to : pystr) :
  match Client.call_phone S W message to with
  | (sent, Ok j) =>
      (exists req, sent = [req] /\ Client.urlopen W req = Client.Body j) \/
      (field j (lit "status") = JStr (lit "error") /\
       (exists text, field j (lit "reason") = JStr text) /\
       forall req code reason body,
         sent = [req] -> Client.urlopen W req = Client.HTTPError code reason body ->
         exists text,
           body = Ok text /\
           field j (lit "code") = JInt code /\
           field j (lit "reason") = JStr (reason ++ lit ": " ++ text))
  | (sent, Raise e) =>
      (sent = [] /\
       Client.request_error W (Client.RELAY_URL S ++ lit "/call") = Some e) \/
      (exists req code reason,
         sent = [req] /\
         Client.request_error W (Client.RELAY_URL S ++ lit "/call") = None /\
         Client.urlopen W req = Client.HTTPError code reason (Raise e))
  end.
Proof.
  unfold Client.call_phone.
  destruct (is_empty (Client.RELAY_TOKEN S)).
  { right. split; [reflexivity|]. split; [by eexists|]. intros ? ? ? ? [=]. }
  destruct (is_empty (Client.RELAY_URL S)).
  { right. split; [reflexivity|]. split; [by eexists|]. intros ? ? ? ? [=]. }
  destruct (is_empty to).
  { right. split; [reflexivity|]. split; [by eexists|]. intros ? ? ? ? [=]. }
  destruct (Client.request_error W _) as [e|] eqn:Hreq; [by left|].
  match goal with |- context [Client.urlopen W ?r] => set (req := r) end.
  destruct (Client.urlopen W req) as [j|code reason [body|e]|text] eqn:Hopen.
  - left. by exists req.
  - right. split; [reflexivity|]. split; [by eexists|].
    intros req' code' reason' body' [= <-] Hopen'.
    rewrite Hopen in Hopen'. injection Hopen' as <- <- <-. by exists body.
  - right. by exists req, code, reason.
  - right. split; [reflexivity|]. split; [by eexists|].
    intros req' code' reason' body' [= <-] Hopen'.
    rewrite Hopen in Hopen'. discriminate.
Qed.



(** The skill against a relay that answers with success, and against one
    that answers 403. *)
Example cli_against_two_relays :
  let S := {| Client.RELAY_URL := lit "http://10.0.0.5:18511";
              Client.RELAY_TOKEN := lit "s3cret";
              Client.OWNER_PHONE := lit "+15551234567" |} in
  let accepting := {| Client.request_error := fun _ => None;
                      Client.urlopen := fun rq =>
                        Client.Body (ok_body (lit "+15551234567") (lit "1700000000007")) |} in
  let refusing := {| Client.request_error := fun _ => None;
                     Client.urlopen := fun rq =>
                       Client.HTTPError 403 (lit "Forbidden") (Ok (lit "<html>")) |} in
  (Client.cli S accepting [lit "Disk full on NAS"]).2 = 0%Z /\
  (Client.cli S refusing [lit "Disk full on NAS"]).2 = 1%Z /\
  (Client.call_phone S refusing (lit "Disk full on NAS") (lit "+15551234567")).2
  = Ok (JDict [(lit "status", JStr (lit "error"));
               (lit "code", JInt 403);
               (lit "reason", JStr (lit "Forbidden: <html>"))]) /\
  Client.cli S accepting [lit "Disk full on NAS"; []] = ([], 1%Z).
Proof. vm_compute. repeat split. Qed.

(** When the relay answers 502 and the connection drops while the error body
    is read, the exception leaves [call_phone] after the request was sent,
    and the command line ends with status 1. *)
Example unreadable_error_body_escapes :
  let S := {| Client.RELAY_URL := lit "http://10.0.0.5:18511";
              Client.RELAY_TOKEN := lit "s3cret";
              Client.OWNER_PHONE := lit "+15551234567" |} in
  let dropping := {| Client.request_error := fun _ => None;
                     Client.urlopen := fun rq =>
                       Client.HTTPError 502 (lit "Bad Gateway")
                                        (Raise (lit "IncompleteRead")) |} in
  (Client.call_phone S dropping (lit "Disk full on NAS") (lit "+15551234567")).2
  = Raise (lit "IncompleteRead") /\
  length (Client.call_phone S dropping (lit "Disk full on NAS") (lit "+15551234567")).1 = 1 /\
  (Client.cli S dropping [lit "Disk full on NAS"]).2 = 1%Z.
Proof. vm_compute. repeat split. Qed.
